(** * A product catalogue and order intake service (FastAPI over MongoDB)

    Shallow embedding of [main.py] and [schemas.py]: the request handlers,
    the schemas that guard them, the document mapping of the product
    listing and the diagnostics endpoint.  Python values are a small
    inductive type, floats are IEEE binary64 (the kernel's primitive
    floats), the global [db] handle is an [option Database], and a handler
    is a function from that handle to an outcome and the handle after it.
    A [string] holds the UTF-8 text of a Python [str]; where the code counts
    characters (the fifty of the diagnostics) the model counts characters,
    not bytes.  Requests and answers are Python values: reading them from
    and rendering them as JSON text is left to the framework. *)

From Stdlib Require Import ZArith Floats List.
From stdpp Require Import gmap strings list.

Set Warnings "-inexact-float,-register-all".
Local Open Scope string_scope.

(** ** Python values *)

(** A BSON object identity: twelve bytes, read as one number. *)
Inductive ObjectId := Oid (n : N).

Inductive value :=
| VNone
| VBool (b : bool)
| VInt (z : Z)
| VFloat (f : float)
| VStr (s : string)
| VOid (o : ObjectId)
| VList (l : list value)
| VDict (kv : list (string * value)).

(** A [dict] with string keys, in insertion order. *)
Definition dict : Type := list (string * value).

Fixpoint dict_get (d : dict) (k : string) : option value :=
  match d with
  | [] => None
  | (k', v) :: d' => if String.eqb k' k then Some v else dict_get d' k
  end.

(** [d[k] = v]: an existing key keeps its place. *)
Fixpoint dict_set (d : dict) (k : string) (v : value) : dict :=
  match d with
  | [] => [(k, v)]
  | (k', v') :: d' =>
      if String.eqb k' k then (k, v) :: d' else (k', v') :: dict_set d' k v
  end.

(** [d.get(k)] and [d.get(k, dflt)]. *)
Definition get (d : dict) (k : string) : value := default VNone (dict_get d k).
Definition get_or (d : dict) (k : string) (dflt : value) : value :=
  default dflt (dict_get d k).

(** ** Exceptions *)

(** An exception of the runtime or of the store driver: its class and
    [str(e)]. *)
Record py_error := PyError { err_class : string; err_str : string }.

Inductive loc_item := LKey (k : string) | LIdx (i : nat).

Inductive field_type := TStr | TFloat | TInt | TBool | TList | TModel.

Inductive error_kind :=
| Missing
| WrongType (expected : field_type)
| GreaterThanEqual (bound : Z).

(** One entry of a validation report: where, and what is wrong. *)
Record error := Err { loc : list loc_item; kind : error_kind }.

Inductive exn :=
| HTTPException (status_code : Z) (detail : string)
| ValidationError (errors : list error)
| Raised (e : py_error).

(** ** The builtins [str], [float] and [bool] *)

(** What the embedding leaves to the runtime: reading a float out of a
    string, and the [repr] of floats and containers. *)
Class Runtime := {
  float_of_string : string -> option float;
  repr_of : value -> string;
}.

Definition hex_digit (n : N) : string :=
  String.substring (N.to_nat n) 1 "0123456789abcdef".

Fixpoint hex_digits (width : nat) (n : N) : string :=
  match width with
  | O => ""
  | S w => hex_digits w (n / 16) ++ hex_digit (n mod 16)
  end.

(** [str(ObjectId)]: twenty-four hexadecimal digits. *)
Definition oid_str (o : ObjectId) : string :=
  let 'Oid n := o in hex_digits 24 n.

Definition pos_digit (p : N) : string :=
  String.substring (N.to_nat p) 1 "0123456789".

Fixpoint dec_digits (fuel : nat) (n : N) : string :=
  match fuel with
  | O => ""
  | S k => if (n <? 10)%N then pos_digit n
           else dec_digits k (n / 10) ++ pos_digit (n mod 10)
  end.

Definition int_str (z : Z) : string :=
  let n := Z.abs_N z in
  let s := dec_digits (S (N.to_nat (N.log2 n))) n in
  if (z <? 0)%Z then "-" ++ s else s.

Definition py_str `{Runtime} (v : value) : string :=
  match v with
  | VNone => "None"
  | VBool true => "True"
  | VBool false => "False"
  | VInt z => int_str z
  | VStr s => s
  | VOid o => oid_str o
  | VFloat _ | VList _ | VDict _ => repr_of v
  end.

(** [float(int)]: the nearest binary64, ties to even. *)
Definition float_of_Z (z : Z) : float :=
  SF2Prim (binary_normalize prec emax z 0 false).

Definition type_error (msg : string) : exn := Raised (PyError "TypeError" msg).

Definition py_float `{Runtime} (v : value) : exn + float :=
  match v with
  | VFloat f => inr f
  | VInt z =>
      let f := float_of_Z z in
      if is_infinity f
      then inl (Raised (PyError "OverflowError" "int too large to convert to float"))
      else inr f
  | VBool b => inr (if b then 1%float else 0%float)
  | VStr s =>
      match float_of_string s with
      | Some f => inr f
      | None =>
          inl (Raised (PyError "ValueError" "could not convert string to float"))
      end
  | VNone | VOid _ | VList _ | VDict _ =>
      inl (type_error "float() argument must be a string or a real number")
  end.

(** Truth value testing. *)
Definition py_bool (v : value) : bool :=
  match v with
  | VNone => false
  | VBool b => b
  | VInt z => negb (z =? 0)%Z
  | VFloat f => negb (PrimFloat.eqb f 0%float)
  | VStr s => negb (String.eqb s "")
  | VOid _ => true
  | VList l => match l with [] => false | _ => true end
  | VDict kv => match kv with [] => false | _ => true end
  end.

(** ** The validation layer (pydantic)

    A field is read out of the payload, brought to its declared type and
    checked against its bound; the report collects the errors of every
    field, in declaration order. *)

(** How the validation library brings a value to a declared scalar type.
    Which other values it converts is left open; the laws say that a
    value which already has the type is taken as it is, and that [None] is
    no string. *)
Class Coercion := {
  as_str : value -> option string;
  as_float : value -> option float;
  as_int : value -> option Z;
  as_bool : value -> option bool;
  as_str_str : forall s, as_str (VStr s) = Some s;
  as_str_none : as_str VNone = None;
  as_float_float : forall f, as_float (VFloat f) = Some f;
  as_int_int : forall z, as_int (VInt z) = Some z;
  as_bool_bool : forall b, as_bool (VBool b) = Some b;
}.

(** The outcome of a validation: the report, or the validated object. *)
Definition V (A : Type) : Type := list error + A.

Definition vmap {A B} (f : A -> B) (x : V A) : V B :=
  match x with inl e => inl e | inr a => inr (f a) end.

Definition vap {A B} (f : V (A -> B)) (x : V A) : V B :=
  match f, x with
  | inr g, inr a => inr (g a)
  | inl e, inr _ => inl e
  | inr _, inl e => inl e
  | inl e1, inl e2 => inl (e1 ++ e2)%list
  end.

Notation "f <$$> x" := (vmap f x) (at level 61, left associativity).
Notation "f <**> x" := (vap f x) (at level 61, left associativity).

Definition errors_of {A} (x : V A) : list error :=
  match x with inl e => e | inr _ => [] end.

(** Errors found below a field or an index are reported under it. *)
Definition under (p : loc_item) (e : error) : error :=
  Err (p :: loc e) (kind e).

Definition at_loc {A} (p : loc_item) (x : V A) : V A :=
  match x with inl e => inl (map (under p) e) | inr a => inr a end.

Definition fail {A} (k : error_kind) : V A := inl [Err [] k].

Section Fields.
Context `{Coercion}.

Definition check_str (v : value) : V string :=
  match as_str v with Some s => inr s | None => fail (WrongType TStr) end.

Definition check_bool (v : value) : V bool :=
  match as_bool v with Some b => inr b | None => fail (WrongType TBool) end.

Definition check_float (v : value) : V float :=
  match as_float v with Some f => inr f | None => fail (WrongType TFloat) end.

(** [float] with [ge=bound]. *)
Definition check_float_ge (bound : Z) (v : value) : V float :=
  match as_float v with
  | Some f => if PrimFloat.leb (float_of_Z bound) f then inr f
              else fail (GreaterThanEqual bound)
  | None => fail (WrongType TFloat)
  end.

(** [int] with [ge=bound]. *)
Definition check_int_ge (bound : Z) (v : value) : V Z :=
  match as_int v with
  | Some z => if (bound <=? z)%Z then inr z else fail (GreaterThanEqual bound)
  | None => fail (WrongType TInt)
  end.

(** [Optional[T]]: [None] passes. *)
Definition check_optional {A} (check : value -> V A) (v : value) : V (option A) :=
  match v with VNone => inr None | _ => Some <$$> check v end.

(** [Field(...)]: the key must be there. *)
Definition required {A} (check : value -> V A) (d : dict) (name : string) : V A :=
  at_loc (LKey name)
    match dict_get d name with
    | None => fail Missing
    | Some v => check v
    end.

(** [Field(dflt)]: a key that is not there takes the default. *)
Definition with_default {A} (dflt : A) (check : value -> V A)
    (d : dict) (name : string) : V A :=
  at_loc (LKey name)
    match dict_get d name with
    | None => inr dflt
    | Some v => check v
    end.

(** [List[T]]: every element is checked and reported under its index. *)
Fixpoint check_elements {A} (check : value -> V A) (i : nat) (l : list value)
    : V (list A) :=
  match l with
  | [] => inr []
  | v :: l' => cons <$$> at_loc (LIdx i) (check v) <**> check_elements check (S i) l'
  end.

Definition check_list {A} (check : value -> V A) (v : value) : V (list A) :=
  match v with
  | VList l => check_elements check 0 l
  | _ => fail (WrongType TList)
  end.

(** A model is read out of a mapping. *)
Definition check_model {A} (fields : dict -> V A) (v : value) : V A :=
  match v with
  | VDict d => fields d
  | _ => fail (WrongType TModel)
  end.
End Fields.

(** The interface of a schema class: validation of a payload, and the
    dictionary of a validated object. *)
Class BaseModel (A : Type) := {
  model_validate : value -> V A;
  model_dump : A -> dict;
}.

Definition dump_opt (o : option string) : value :=
  match o with Some s => VStr s | None => VNone end.

(** ** schemas.py *)

Module Product.
Record t := Build {
  title : string;
  description : option string;
  price : float;
  category : string;
  image : option string;
  in_stock : bool;
}.

Definition fields `{Coercion} (d : dict) : V t :=
  Build <$$> required check_str d "title"
        <**> with_default None (check_optional check_str) d "description"
        <**> required (check_float_ge 0) d "price"
        <**> required check_str d "category"
        <**> with_default None (check_optional check_str) d "image"
        <**> with_default true check_bool d "in_stock".

Definition dump (p : t) : dict :=
  [("title", VStr (title p));
   ("description", dump_opt (description p));
   ("price", VFloat (price p));
   ("category", VStr (category p));
   ("image", dump_opt (image p));
   ("in_stock", VBool (in_stock p))].
End Product.

#[export] Instance Product_model `{Coercion} : BaseModel Product.t :=
  {| model_validate := check_model Product.fields; model_dump := Product.dump |}.

Module OrderItem.
Record t := Build {
  product_id : string;
  title : string;
  price : float;
  quantity : Z;
  image : option string;
}.

Definition fields `{Coercion} (d : dict) : V t :=
  Build <$$> required check_str d "product_id"
        <**> required check_str d "title"
        <**> required (check_float_ge 0) d "price"
        <**> required (check_int_ge 1) d "quantity"
        <**> with_default None (check_optional check_str) d "image".

Definition dump (i : t) : dict :=
  [("product_id", VStr (product_id i));
   ("title", VStr (title i));
   ("price", VFloat (price i));
   ("quantity", VInt (quantity i));
   ("image", dump_opt (image i))].
End OrderItem.

#[export] Instance OrderItem_model `{Coercion} : BaseModel OrderItem.t :=
  {| model_validate := check_model OrderItem.fields; model_dump := OrderItem.dump |}.

Module Order.
Record t := Build {
  items : list OrderItem.t;
  subtotal : float;
  shipping : float;
  tax : float;
  total : float;
  customer_name : string;
  customer_email : string;
  address_line1 : string;
  address_line2 : option string;
  city : string;
  state : string;
  postal_code : string;
  country : string;
}.

Definition fields `{Coercion} (d : dict) : V t :=
  Build <$$> required (check_list (check_model OrderItem.fields)) d "items"
        <**> required (check_float_ge 0) d "subtotal"
        <**> required (check_float_ge 0) d "shipping"
        <**> required (check_float_ge 0) d "tax"
        <**> required (check_float_ge 0) d "total"
        <**> required check_str d "customer_name"
        <**> required check_str d "customer_email"
        <**> required check_str d "address_line1"
        <**> with_default None (check_optional check_str) d "address_line2"
        <**> required check_str d "city"
        <**> required check_str d "state"
        <**> required check_str d "postal_code"
        <**> required check_str d "country".

Definition dump (o : t) : dict :=
  [("items", VList (map (fun i => VDict (OrderItem.dump i)) (items o)));
   ("subtotal", VFloat (subtotal o));
   ("shipping", VFloat (shipping o));
   ("tax", VFloat (tax o));
   ("total", VFloat (total o));
   ("customer_name", VStr (customer_name o));
   ("customer_email", VStr (customer_email o));
   ("address_line1", VStr (address_line1 o));
   ("address_line2", dump_opt (address_line2 o));
   ("city", VStr (city o));
   ("state", VStr (state o));
   ("postal_code", VStr (postal_code o));
   ("country", VStr (country o))].
End Order.

#[export] Instance Order_model `{Coercion} : BaseModel Order.t :=
  {| model_validate := check_model Order.fields; model_dump := Order.dump |}.

(** ** The document store *)

(** What reading an attribute of an object gives. *)
Inductive attr :=
| AttrMissing
| AttrValue (v : value)
| AttrRaises (e : py_error).

(** The calls a collection has received. *)
Inductive store_op :=
| CountDocuments (c : string)
| InsertMany (c : string) (docs : list dict)
| InsertOne (c : string) (doc : dict)
| Find (c : string).

(** Modelled from the spec: the store behind [db], which database.py sets
    up and the sources do not include.  It is the opaque store of the
    specification: named collections of documents in insertion order, an
    identity assigned on insert, and an introspection probe that may throw.
    The operations on a collection are taken to succeed.  [calls] keeps the
    collection operations received so far. *)
Record Database := {
  collections : gmap string (list dict);
  next_oid : N;
  calls : list store_op;
  name_attr : attr;
  list_fault : option py_error;
}.

(** [db[c]]: a collection that was never written to is empty. *)
Definition documents (d : Database) (c : string) : list dict :=
  default [] (collections d !! c).

Definition record (op : store_op) (d : Database) : Database :=
  {| collections := collections d; next_oid := next_oid d;
     calls := (calls d ++ [op])%list;
     name_attr := name_attr d; list_fault := list_fault d |}.

Definition store (c : string) (docs : list dict) (next : N) (d : Database)
    : Database :=
  {| collections := <[c := docs]> (collections d); next_oid := next;
     calls := calls d; name_attr := name_attr d; list_fault := list_fault d |}.

(** A document without an identity is given the next one. *)
Definition with_id (next : N) (doc : dict) : dict * N :=
  match dict_get doc "_id" with
  | Some _ => (doc, next)
  | None => (("_id", VOid (Oid next)) :: doc, (next + 1)%N)
  end.

Fixpoint with_ids (next : N) (docs : list dict) : list dict * N :=
  match docs with
  | [] => ([], next)
  | doc :: rest =>
      let '(doc', next') := with_id next doc in
      let '(rest', next'') := with_ids next' rest in
      (doc' :: rest', next'')
  end.

Definition count_documents (c : string) (d : Database) : Z * Database :=
  (Z.of_nat (length (documents d c)), record (CountDocuments c) d).

Definition insert_many (c : string) (docs : list dict) (d : Database)
    : unit * Database :=
  let '(docs', next) := with_ids (next_oid d) docs in
  (tt, store c (documents d c ++ docs')%list next (record (InsertMany c docs) d)).

(** [insert_one(doc).inserted_id]. *)
Definition insert_one (c : string) (doc : dict) (d : Database)
    : value * Database :=
  let '(doc', next) := with_id (next_oid d) doc in
  (get doc' "_id",
   store c (documents d c ++ [doc'])%list next (record (InsertOne c doc) d)).

Definition find (c : string) (d : Database) : list dict * Database :=
  (documents d c, record (Find c) d).

Definition list_collection_names (d : Database) : py_error + list string :=
  match list_fault d with
  | Some e => inl e
  | None => inr (map fst (map_to_list (collections d)))
  end.

(** ** Request handlers: the global [db] and exceptions *)

Definition Handler (A : Type) : Type :=
  option Database -> (exn + A) * option Database.

Definition ret {A} (a : A) : Handler A := fun db => (inr a, db).

Definition raise {A} (e : exn) : Handler A := fun db => (inl e, db).

Definition bind {A B} (m : Handler A) (k : A -> Handler B) : Handler B :=
  fun db =>
    match m db with
    | (inr a, db') => k a db'
    | (inl e, db') => (inl e, db')
    end.

Notation "x <- m ;; k" := (bind m (fun x => k))
  (at level 100, m at next level, right associativity).
Notation "m ;;; k" := (bind m (fun _ => k))
  (at level 100, right associativity).

(** Reads the global. *)
Definition the_db : Handler (option Database) := fun db => (inr db, db).

(** A call on a collection of [db]; on [None] there is nothing to
    subscript. *)
Definition on_db {A} (op : Database -> A * Database) : Handler A :=
  fun db =>
    match db with
    | Some d => let '(a, d') := op d in (inr a, Some d')
    | None => (inl (type_error "'NoneType' object is not subscriptable"), None)
    end.

(** An expression that may raise, inside a handler. *)
Definition lift {A} (r : exn + A) : Handler A := fun db => (r, db).

(** A list comprehension whose element expression may raise. *)
Fixpoint for_each {A B} (f : A -> exn + B) (l : list A) : exn + list B :=
  match l with
  | [] => inr []
  | a :: l' =>
      match f a with
      | inl e => inl e
      | inr b =>
          match for_each f l' with
          | inl e => inl e
          | inr bs => inr (b :: bs)
          end
      end
  end.

(** Modelled from the spec: [create_document] of database.py, which the
    sources do not include.  By the specification it inserts the document
    of the validated object, as it is, into the named collection and
    returns the identity the store assigned, as a string. *)
Definition create_document `{Runtime} {A} `{BaseModel A}
    (collection_name : string) (data : A) : Handler string :=
  inserted_id <- on_db (insert_one collection_name (model_dump data)) ;;
  ret (py_str inserted_id).

(** ** main.py *)

Module ProductResponse.
Record t := Build {
  id : string;
  title : string;
  description : option string;
  price : float;
  category : string;
  image : option string;
  in_stock : bool;
}.

Definition fields `{Coercion} (d : dict) : V t :=
  Build <$$> required check_str d "id"
        <**> required check_str d "title"
        <**> required (check_optional check_str) d "description"
        <**> required check_float d "price"
        <**> required check_str d "category"
        <**> required (check_optional check_str) d "image"
        <**> required check_bool d "in_stock".

Definition dump (r : t) : dict :=
  [("id", VStr (id r));
   ("title", VStr (title r));
   ("description", dump_opt (description r));
   ("price", VFloat (price r));
   ("category", VStr (category r));
   ("image", dump_opt (image r));
   ("in_stock", VBool (in_stock r))].

(** [ProductResponse(id=..., title=..., ...)]: the keyword arguments are
    validated, and a report is raised as an exception. *)
Definition init `{Coercion} (kwargs : dict) : exn + t :=
  match fields kwargs with
  | inl errs => inl (ValidationError errs)
  | inr r => inr r
  end.
End ProductResponse.

#[export] Instance ProductResponse_model `{Coercion} : BaseModel ProductResponse.t :=
  {| model_validate := check_model ProductResponse.fields;
     model_dump := ProductResponse.dump |}.

Definition getenv (environ : gmap string string) (name : string) : option string :=
  environ !! name.

(** The truth value of what [os.getenv] returns: [None] and the empty
    string are false. *)
Definition getenv_truthy (environ : gmap string string) (name : string) : bool :=
  match getenv environ name with
  | Some s => negb (String.eqb s "")
  | None => false
  end.

(** A byte that continues a character of UTF-8 text: [10xxxxxx]. *)
Definition is_continuation (c : Ascii.ascii) : bool :=
  let 'Ascii.Ascii _ _ _ _ _ _ b6 b7 := c in b7 && negb b6.

(** The number of characters of a text: every character has one byte that
    is no continuation. *)
Fixpoint utf8_length (s : string) : nat :=
  match s with
  | EmptyString => 0
  | String c rest =>
      if is_continuation c then utf8_length rest else S (utf8_length rest)
  end.

(** [s[:n]]: the first [n] characters of a text, each with all its
    bytes. *)
Fixpoint utf8_take (n : nat) (s : string) : string :=
  match s with
  | EmptyString => EmptyString
  | String c rest =>
      if is_continuation c then String c (utf8_take n rest)
      else match n with
           | O => EmptyString
           | S k => String c (utf8_take k rest)
           end
  end.

(** [str(e)[:50]]. *)
Definition summary (e : py_error) : string := utf8_take 50 (err_str e).

(** The body of [test_database] runs over the [response] dictionary it
    fills in: an assignment made before an exception stays made. *)
Definition Probe (A : Type) : Type := dict -> (py_error + A) * dict.

Definition pret {A} (a : A) : Probe A := fun r => (inr a, r).

Definition pbind {A B} (m : Probe A) (k : A -> Probe B) : Probe B :=
  fun r =>
    match m r with
    | (inr a, r') => k a r'
    | (inl e, r') => (inl e, r')
    end.

Definition praise {A} (e : py_error) : Probe A := fun r => (inl e, r).

(** [response[k] = v]. *)
Definition assign (k : string) (v : value) : Probe unit :=
  fun r => (inr tt, dict_set r k v).

(** [try: body except Exception as e: handler]. *)
Definition try_except (body : Probe unit) (handler : py_error -> Probe unit)
    : Probe unit :=
  fun r =>
    match body r with
    | (inr tt, r') => (inr tt, r')
    | (inl e, r') => handler e r'
    end.

Notation "x <~ m ;; k" := (pbind m (fun x => k))
  (at level 100, m at next level, right associativity).
Notation "m ~;; k" := (pbind m (fun _ => k))
  (at level 100, right associativity).

(** Whether an exception is one that [hasattr] takes for a missing
    attribute; [err_class] is the class an [except] clause sees. *)
Definition is_attribute_error (e : py_error) : bool :=
  String.eqb (err_class e) "AttributeError".

(** [hasattr(db, 'name')]: an attribute that is not there, or whose lookup
    raises an attribute error, means no; any other exception passes
    through. *)
Definition hasattr_name (d : Database) : Probe bool :=
  match name_attr d with
  | AttrMissing => pret false
  | AttrValue _ => pret true
  | AttrRaises e => if is_attribute_error e then pret false else praise e
  end.

(** [db.name]. *)
Definition getattr_name (d : Database) : Probe value :=
  match name_attr d with
  | AttrMissing =>
      praise (PyError "AttributeError" "'Database' object has no attribute 'name'")
  | AttrValue v => pret v
  | AttrRaises e => praise e
  end.

(** The exception that looking at [db.name] lets out, if any. *)
Definition name_raises (d : Database) : option py_error :=
  match name_attr d with
  | AttrRaises e => if is_attribute_error e then None else Some e
  | _ => None
  end.

Definition call_list_collection_names (d : Database) : Probe (list string) :=
  match list_collection_names d with
  | inl e => praise e
  | inr names => pret names
  end.

Definition test_database (db : option Database) (environ : gmap string string)
    : dict :=
  let response : dict :=
    [("backend", VStr "✅ Running");
     ("database", VStr "❌ Not Available");
     ("database_url", VNone);
     ("database_name", VNone);
     ("connection_status", VStr "Not Connected");
     ("collections", VList [])] in
  let '(_, response) :=
    try_except
      (match db with
       | Some d =>
           assign "database" (VStr "✅ Available") ~;;
           assign "database_url" (VStr "✅ Configured") ~;;
           has_name <~ hasattr_name d ;;
           name <~ (if has_name : bool then getattr_name d
                    else pret (VStr "✅ Connected")) ;;
           assign "database_name" name ~;;
           assign "connection_status" (VStr "Connected") ~;;
           try_except
             (collections <~ call_list_collection_names d ;;
              assign "collections" (VList (map VStr (firstn 10 collections))) ~;;
              assign "database" (VStr "✅ Connected & Working"))
             (fun e =>
                assign "database"
                  (VStr ("⚠️  Connected but Error: " ++ summary e)))
       | None => assign "database" (VStr "⚠️  Available but not initialized")
       end)
      (fun e => assign "database" (VStr ("❌ Error: " ++ summary e)))
      response in
  let response :=
    dict_set response "database_url"
      (VStr (if getenv_truthy environ "DATABASE_URL" then "✅ Set" else "❌ Not Set")) in
  let response :=
    dict_set response "database_name"
      (VStr (if getenv_truthy environ "DATABASE_NAME" then "✅ Set" else "❌ Not Set")) in
  response.

Definition sample_products : list dict :=
  [[("title", VStr "Minimalist Chair");
    ("description", VStr "A modern, comfortable chair with a minimalist design.");
    ("price", VFloat 89.99);
    ("category", VStr "Furniture");
    ("image", VStr "https://images.unsplash.com/photo-1549187774-b4e9b0445b41?q=80&w=1200&auto=format&fit=crop");
    ("in_stock", VBool true)];
   [("title", VStr "Wireless Headphones");
    ("description", VStr "Noise-cancelling over-ear headphones with 30h battery.");
    ("price", VFloat 129.0);
    ("category", VStr "Electronics");
    ("image", VStr "https://images.unsplash.com/photo-1518449037270-3c0758cd7ed0?q=80&w=1200&auto=format&fit=crop");
    ("in_stock", VBool true)];
   [("title", VStr "Ceramic Mug");
    ("description", VStr "Handmade ceramic mug for coffee or tea (350ml).");
    ("price", VFloat 16.5);
    ("category", VStr "Kitchen");
    ("image", VStr "https://images.unsplash.com/photo-1509463531436-7b8b53f6d4ba?q=80&w=1200&auto=format&fit=crop");
    ("in_stock", VBool true)]].

Definition to_response `{Runtime} `{Coercion} (doc : dict)
    : exn + ProductResponse.t :=
  let id := py_str (get doc "_id") in
  let title := get doc "title" in
  let description := get doc "description" in
  match py_float (get_or doc "price" (VInt 0)) with
  | inl e => inl e
  | inr price =>
      let category := get_or doc "category" (VStr "General") in
      let image := get doc "image" in
      let in_stock := py_bool (get_or doc "in_stock" (VBool true)) in
      ProductResponse.init
        [("id", VStr id); ("title", title); ("description", description);
         ("price", VFloat price); ("category", category); ("image", image);
         ("in_stock", VBool in_stock)]
  end.

Definition list_products `{Runtime} `{Coercion}
    : Handler (list ProductResponse.t) :=
  db <- the_db ;;
  match db with
  | None => raise (HTTPException 500 "Database not configured")
  | Some _ =>
      n <- on_db (count_documents "product") ;;
      (if (n =? 0)%Z then on_db (insert_many "product" sample_products)
       else ret tt) ;;;
      products <- on_db (find "product") ;;
      lift (for_each to_response products)
  end.

Definition create_product `{Runtime} `{Coercion} (product : Product.t)
    : Handler dict :=
  db <- the_db ;;
  match db with
  | None => raise (HTTPException 500 "Database not configured")
  | Some _ =>
      new_id <- create_document "product" product ;;
      ret [("id", VStr new_id)]
  end.

Definition create_order `{Runtime} `{Coercion} (order : Order.t)
    : Handler dict :=
  db <- the_db ;;
  match db with
  | None => raise (HTTPException 500 "Database not configured")
  | Some _ =>
      order_id <- create_document "order" order ;;
      ret [("id", VStr order_id); ("status", VStr "received")]
  end.

(** ** Routing (FastAPI)

    The framework validates a request body against the schema of the
    handler's parameter before it calls the handler, answers a failed
    validation with 422 and the report, turns an [HTTPException] into its
    status and detail, and any other exception into a plain 500. *)

Inductive response :=
| Success (body : value)
| Unprocessable (detail : list error)
| HTTPError (status_code : Z) (detail : string)
| InternalServerError.

Definition status (r : response) : Z :=
  match r with
  | Success _ => 200
  | Unprocessable _ => 422
  | HTTPError s _ => s
  | InternalServerError => 500
  end.

Definition Endpoint : Type := option Database -> response * option Database.

Definition respond {A} (encode : A -> value) (h : Handler A) : Endpoint :=
  fun db =>
    match h db with
    | (inr a, db') => (Success (encode a), db')
    | (inl (HTTPException s detail), db') => (HTTPError s detail, db')
    | (inl _, db') => (InternalServerError, db')
    end.

Definition with_body {A} `{BaseModel A} (body : value) (h : A -> Endpoint)
    : Endpoint :=
  fun db =>
    match model_validate body with
    | inl errs => (Unprocessable (map (under (LKey "body")) errs), db)
    | inr a => h a db
    end.

Definition encode_products (rs : list ProductResponse.t) : value :=
  VList (map (fun r => VDict (ProductResponse.dump r)) rs).

(** [GET /test] *)
Definition get_test (db : option Database) (environ : gmap string string)
    : response :=
  Success (VDict (test_database db environ)).

(** [GET /api/products] *)
Definition get_api_products `{Runtime} `{Coercion} : Endpoint :=
  respond encode_products list_products.

(** [POST /api/products] *)
Definition post_api_products `{Runtime} `{Coercion} (body : value) : Endpoint :=
  with_body body (fun product => respond VDict (create_product product)).

(** [POST /api/orders] *)
Definition post_api_orders `{Runtime} `{Coercion} (body : value) : Endpoint :=
  with_body body (fun order => respond VDict (create_order order)).

(** ** Concrete instances, for running the handlers *)

(** A coercion that takes JSON values of the declared type, and an integer
    where a float is declared. *)
Definition json_str (v : value) : option string :=
  match v with VStr s => Some s | _ => None end.

Definition json_float (v : value) : option float :=
  match v with
  | VFloat f => Some f
  | VInt z => let f := float_of_Z z in if is_infinity f then None else Some f
  | _ => None
  end.

Definition json_int (v : value) : option Z :=
  match v with VInt z => Some z | _ => None end.

Definition json_bool (v : value) : option bool :=
  match v with VBool b => Some b | _ => None end.

Definition json_coercion : Coercion :=
  {| as_str := json_str; as_float := json_float; as_int := json_int;
     as_bool := json_bool;
     as_str_str := fun _ => eq_refl; as_str_none := eq_refl;
     as_float_float := fun _ => eq_refl; as_int_int := fun _ => eq_refl;
     as_bool_bool := fun _ => eq_refl |}.

(** A runtime that reads no float out of a string and prints containers as
    the empty string; the examples below never ask it to. *)
Definition bare_runtime : Runtime :=
  {| float_of_string := fun _ => None; repr_of := fun _ => "" |}.

(** A configured store that holds nothing yet. *)
Definition empty_db : Database :=
  {| collections := ∅; next_oid := 0; calls := [];
     name_attr := AttrValue (VStr "shop"); list_fault := None |}.

Definition set_documents (c : string) (docs : list dict) (d : Database)
    : Database :=
  store c docs (next_oid d) d.

(** ** The schemas as the specification words them

    The data model of the specification, field by field: the declared kind
    of each field and whether it is required.  The theorems below compare
    it with the validators of schemas.py. *)

Inductive field_kind :=
| KStr          (* string *)
| KOptStr       (* string or null *)
| KFloatGe0     (* float, at least 0 *)
| KIntGe1       (* int, at least 1 *)
| KBool.        (* bool *)

Record field_decl := Field {
  field_name : string;
  field_is : field_kind;
  field_required : bool;
}.

Definition Product_spec : list field_decl :=
  [Field "title" KStr true; Field "description" KOptStr false;
   Field "price" KFloatGe0 true; Field "category" KStr true;
   Field "image" KOptStr false; Field "in_stock" KBool false].

Definition OrderItem_spec : list field_decl :=
  [Field "product_id" KStr true; Field "title" KStr true;
   Field "price" KFloatGe0 true; Field "quantity" KIntGe1 true;
   Field "image" KOptStr false].

(** The fields of an order besides [items]. *)
Definition Order_spec : list field_decl :=
  [Field "subtotal" KFloatGe0 true; Field "shipping" KFloatGe0 true;
   Field "tax" KFloatGe0 true; Field "total" KFloatGe0 true;
   Field "customer_name" KStr true; Field "customer_email" KStr true;
   Field "address_line1" KStr true; Field "address_line2" KOptStr false;
   Field "city" KStr true; Field "state" KStr true;
   Field "postal_code" KStr true; Field "country" KStr true].

Section Violations.
Context `{Coercion}.

(** A value that is there but is not of the declared kind. *)
Inductive ill_typed : field_kind -> value -> error_kind -> Prop :=
| not_a_string v :
    as_str v = None -> ill_typed KStr v (WrongType TStr)
| not_a_string_or_null v :
    v <> VNone -> as_str v = None -> ill_typed KOptStr v (WrongType TStr)
| not_a_float v :
    as_float v = None -> ill_typed KFloatGe0 v (WrongType TFloat)
| negative_float v p :
    as_float v = Some p -> PrimFloat.ltb p 0 = true ->
    ill_typed KFloatGe0 v (GreaterThanEqual 0)
| not_an_int v :
    as_int v = None -> ill_typed KIntGe1 v (WrongType TInt)
| int_below_one v q :
    as_int v = Some q -> (q < 1)%Z -> ill_typed KIntGe1 v (GreaterThanEqual 1)
| not_a_bool v :
    as_bool v = None -> ill_typed KBool v (WrongType TBool).

(** A payload violates a schema at a field: a required field is not
    there, or a field that is there is ill typed. *)
Inductive violates (spec : list field_decl) (d : dict) : error -> Prop :=
| missing_field f :
    In f spec -> field_required f = true -> dict_get d (field_name f) = None ->
    violates spec d (Err [LKey (field_name f)] Missing)
| ill_typed_field f v k :
    In f spec -> dict_get d (field_name f) = Some v ->
    ill_typed (field_is f) v k ->
    violates spec d (Err [LKey (field_name f)] k).

(** For an order, also: no [items], [items] that is no list, an item that
    is no object, an item that violates its own schema. *)
Inductive Order_violates (d : dict) : error -> Prop :=
| order_field e : violates Order_spec d e -> Order_violates d e
| items_missing :
    dict_get d "items" = None -> Order_violates d (Err [LKey "items"] Missing)
| items_not_a_list v :
    dict_get d "items" = Some v -> (forall l, v <> VList l) ->
    Order_violates d (Err [LKey "items"] (WrongType TList))
| item_not_an_object l i v :
    dict_get d "items" = Some (VList l) -> nth_error l i = Some v ->
    (forall kv, v <> VDict kv) ->
    Order_violates d (Err [LKey "items"; LIdx i] (WrongType TModel))
| item_field l i kv e :
    dict_get d "items" = Some (VList l) -> nth_error l i = Some (VDict kv) ->
    violates OrderItem_spec kv e ->
    Order_violates d (under (LKey "items") (under (LIdx i) e)).
End Violations.

(** The two endpoints that take a body. *)
Inductive schema := ProductSchema | OrderSchema.

Definition post `{Runtime} `{Coercion} (s : schema) (body : value) : Endpoint :=
  match s with
  | ProductSchema => post_api_products body
  | OrderSchema => post_api_orders body
  end.

(** The validation report of a body, when there is one. *)
Definition report `{Coercion} (s : schema) (body : value) : option (list error) :=
  match s with
  | ProductSchema =>
      match model_validate (A:=Product.t) body with
      | inl errs => Some errs
      | inr _ => None
      end
  | OrderSchema =>
      match model_validate (A:=Order.t) body with
      | inl errs => Some errs
      | inr _ => None
      end
  end.

Inductive invalid_body `{Coercion} : schema -> value -> error -> Prop :=
| invalid_product d e :
    violates Product_spec d e -> invalid_body ProductSchema (VDict d) e
| invalid_order d e :
    Order_violates d e -> invalid_body OrderSchema (VDict d) e.

(** The per-field bounds of an order, and nothing else. *)
Definition item_in_bounds (i : OrderItem.t) : Prop :=
  PrimFloat.leb 0 (OrderItem.price i) = true /\ (1 <= OrderItem.quantity i)%Z.

Definition order_in_bounds (o : Order.t) : Prop :=
  Forall item_in_bounds (Order.items o) /\
  PrimFloat.leb 0 (Order.subtotal o) = true /\
  PrimFloat.leb 0 (Order.shipping o) = true /\
  PrimFloat.leb 0 (Order.tax o) = true /\
  PrimFloat.leb 0 (Order.total o) = true.

(** ** Sample requests and stores *)

Definition lamp : dict :=
  [("title", VStr "Desk Lamp"); ("price", VFloat 24.5);
   ("category", VStr "Lighting")].

Definition lamp_negative : dict :=
  [("title", VStr "Desk Lamp"); ("price", VFloat (-1));
   ("category", VStr "Lighting")].

Definition mug_item : OrderItem.t :=
  OrderItem.Build "000000000000000000000002" "Ceramic Mug" 16.5 2 None.

(** An order whose totals do not add up: 1 + 2 + 3 against 100, and two mugs
    at 16.5 against a subtotal of 1. *)
Definition odd_order (items : list OrderItem.t) : Order.t :=
  Order.Build items 1 2 3 100 "Ada" "ada@example.org" "1 Main St" None
    "Springfield" "IL" "62701" "US".

(** A document that some other writer left in the product collection: it
    has a price and no title. *)
Definition legacy_product : dict :=
  [("_id", VOid (Oid 7)); ("price", VFloat 5)].

Definition legacy_db : Database :=
  set_documents "product" [legacy_product] empty_db.

(** A document with an identity and a title, and nothing else. *)
Definition bare_product : dict :=
  [("_id", VOid (Oid 7)); ("title", VStr "Old Vase")].

(** An order with no items, and totals of zero. *)
Definition empty_order : Order.t :=
  Order.Build [] 0 0 0 0 "Ada" "ada@example.org" "1 Main St" None
    "Springfield" "IL" "62701" "US".

(** The empty store after the seed products were inserted. *)
Definition seeded_db : Database :=
  snd (insert_many "product" sample_products empty_db).

(** A store that is connected and whose names cannot be listed. *)
Definition unreachable_db : Database :=
  {| collections := ∅; next_oid := 0; calls := [];
     name_attr := AttrValue (VStr "shop");
     list_fault :=
       Some (PyError "ServerSelectionTimeoutError"
               "localhost:27017: [Errno 111] Connection refused, Timeout: 30s, Topology Description: unknown") |}.

(** A handle whose [name] raises when it is read. *)
Definition broken_db : Database :=
  {| collections := ∅; next_oid := 0; calls := [];
     name_attr := AttrRaises (PyError "RuntimeError" "handle closed");
     list_fault := None |}.

(** A store whose failure is reported in French: seventy characters, four of
    them of two bytes. *)
Definition french_db : Database :=
  {| collections := ∅; next_oid := 0; calls := [];
     name_attr := AttrValue (VStr "shop");
     list_fault :=
       Some (PyError "ServerSelectionTimeoutError"
               "Échec de la connexion au serveur de données situé à l'adresse 10.0.0.7") |}.

(** A handle whose [name] raises an attribute error when it is read. *)
Definition nameless_db : Database :=
  {| collections := ∅; next_oid := 0; calls := [];
     name_attr := AttrRaises (PyError "AttributeError" "no name yet");
     list_fault := None |}.

(** An order payload with an integer total that no float holds, a key the
    schema does not declare, and no second address line. *)
Definition loose_order : dict :=
  [("items", VList [VDict (OrderItem.dump mug_item)]);
   ("subtotal", VFloat 33); ("shipping", VFloat 0); ("tax", VFloat 0);
   ("total", VInt 9007199254740993);
   ("customer_name", VStr "Ada"); ("customer_email", VStr "ada@example.org");
   ("address_line1", VStr "1 Main St");
   ("city", VStr "Springfield"); ("state", VStr "IL");
   ("postal_code", VStr "62701"); ("country", VStr "US");
   ("coupon", VStr "SPRING")].

(** A stored product whose price is an integer beyond every float. *)
Definition huge_price_product : dict :=
  [("_id", VOid (Oid 12)); ("title", VStr "Old Vase"); ("price", VInt (2 ^ 1024))].

(** An item with a quantity of zero. *)
Definition no_mug : OrderItem.t :=
  OrderItem.Build "000000000000000000000002" "Ceramic Mug" 16.5 0 None.

(** [DATABASE_URL] is set, to the empty string. *)
Definition empty_url : gmap string string := {["DATABASE_URL" := ""]}.

(** The answers for the three seed products, as the specification lists
    them, with the identities the store assigns from [n] on. *)
Definition seed_responses (n : N) : list ProductResponse.t :=
  [ProductResponse.Build (oid_str (Oid n)) "Minimalist Chair"
     (Some "A modern, comfortable chair with a minimalist design.")
     89.99 "Furniture"
     (Some "https://images.unsplash.com/photo-1549187774-b4e9b0445b41?q=80&w=1200&auto=format&fit=crop")
     true;
   ProductResponse.Build (oid_str (Oid (n + 1))) "Wireless Headphones"
     (Some "Noise-cancelling over-ear headphones with 30h battery.")
     129.0 "Electronics"
     (Some "https://images.unsplash.com/photo-1518449037270-3c0758cd7ed0?q=80&w=1200&auto=format&fit=crop")
     true;
   ProductResponse.Build (oid_str (Oid (n + 1 + 1))) "Ceramic Mug"
     (Some "Handmade ceramic mug for coffee or tea (350ml).")
     16.5 "Kitchen"
     (Some "https://images.unsplash.com/photo-1509463531436-7b8b53f6d4ba?q=80&w=1200&auto=format&fit=crop")
     true].

(** The response of a stored product that has every field. *)
Definition response_of (o : ObjectId) (p : Product.t) : ProductResponse.t :=
  ProductResponse.Build (oid_str o) (Product.title p) (Product.description p)
    (Product.price p) (Product.category p) (Product.image p) (Product.in_stock p).

(** What the validators report for a value of a declared kind, and for a
    declared field of a payload. *)
Definition kind_errors `{Coercion} (k : field_kind) (v : value) : list error :=
  match k with
  | KStr => errors_of (check_str v)
  | KOptStr => errors_of (check_optional check_str v)
  | KFloatGe0 => errors_of (check_float_ge 0 v)
  | KIntGe1 => errors_of (check_int_ge 1 v)
  | KBool => errors_of (check_bool v)
  end.

Definition field_errors `{Coercion} (d : dict) (f : field_decl) : list error :=
  match dict_get d (field_name f) with
  | None => if field_required f then [Err [LKey (field_name f)] Missing] else []
  | Some v => map (under (LKey (field_name f))) (kind_errors (field_is f) v)
  end.

(** ** The User schema

    [age] is the one field of schemas.py with an upper bound, so its report
    has one more kind of error. *)

Inductive user_error_kind :=
| Plain (k : error_kind)
| LessThanEqual (bound : Z).

Record user_error := UErr { uloc : list loc_item; ukind : user_error_kind }.

Definition UV (A : Type) : Type := list user_error + A.

(** An outcome of the validators above, as an outcome for a user. *)
Definition plain {A} (x : V A) : UV A :=
  match x with
  | inl errs => inl (map (fun e => UErr (loc e) (Plain (kind e))) errs)
  | inr a => inr a
  end.

Definition umap {A B} (f : A -> B) (x : UV A) : UV B :=
  match x with inl e => inl e | inr a => inr (f a) end.

Definition uap {A B} (f : UV (A -> B)) (x : UV A) : UV B :=
  match f, x with
  | inr g, inr a => inr (g a)
  | inl e, inr _ => inl e
  | inr _, inl e => inl e
  | inl e1, inl e2 => inl (e1 ++ e2)%list
  end.

(** [Optional[int]] with [ge=lo] and [le=hi]. *)
Definition check_optional_int_range `{Coercion} (lo hi : Z) (v : value)
    : UV (option Z) :=
  match v with
  | VNone => inr None
  | _ =>
      match as_int v with
      | None => inl [UErr [] (Plain (WrongType TInt))]
      | Some z =>
          if (lo <=? z)%Z then
            if (z <=? hi)%Z then inr (Some z)
            else inl [UErr [] (LessThanEqual hi)]
          else inl [UErr [] (Plain (GreaterThanEqual lo))]
      end
  end.

(** [Field(None, ...)] for such a field. *)
Definition optional_int_field `{Coercion} (lo hi : Z) (d : dict) (name : string)
    : UV (option Z) :=
  match dict_get d name with
  | None => inr None
  | Some v =>
      match check_optional_int_range lo hi v with
      | inl errs => inl (map (fun e => UErr (LKey name :: uloc e) (ukind e)) errs)
      | inr a => inr a
      end
  end.

Module User.
Record t := Build {
  name : string;
  email : string;
  address : string;
  age : option Z;
  is_active : bool;
}.

Definition fields `{Coercion} (d : dict) : UV t :=
  uap (uap (uap (uap (umap Build (plain (required check_str d "name")))
                     (plain (required check_str d "email")))
                (plain (required check_str d "address")))
           (optional_int_field 0 120 d "age"))
      (plain (with_default true check_bool d "is_active")).

Definition dump (u : t) : dict :=
  [("name", VStr (name u));
   ("email", VStr (email u));
   ("address", VStr (address u));
   ("age", match age u with Some z => VInt z | None => VNone end);
   ("is_active", VBool (is_active u))].
End User.

(** A user payload with an age beyond the upper bound. *)
Definition old_user : dict :=
  [("name", VStr "Ada"); ("email", VStr "ada@example.org");
   ("address", VStr "1 Main St"); ("age", VInt 121)].

(** A user payload whose age is null. *)
Definition ageless_user : dict :=
  [("name", VStr "Ada"); ("email", VStr "ada@example.org");
   ("address", VStr "1 Main St"); ("age", VNone)].

Definition young_user : dict :=
  [("name", VStr "Ada"); ("email", VStr "ada@example.org");
   ("address", VStr "1 Main St"); ("age", VInt 36)].

(** ** Sequences of requests *)




(** The store that [list_products] leaves behind. *)
Definition after_listing (d : Database) : Database :=
  record (Find "product")
    (if (Z.of_nat (length (documents d "product")) =? 0)%Z
     then snd (insert_many "product" sample_products
                 (record (CountDocuments "product") d))
     else record (CountDocuments "product") d).


(** Two payloads that agree on the fields a schema declares. *)
Definition agree_on (spec : list field_decl) (d d' : dict) : Prop :=
  forall f, In f spec -> dict_get d (field_name f) = dict_get d' (field_name f).

(** A product payload with a key the schema does not declare. *)
Definition lamp_with_sku : dict := ("sku", VStr "L-24") :: lamp.

(** Stored products whose fields are there, with values of other types: an
    integer price, a text for [in_stock]; a null price; a null category. *)
Definition loose_product : dict :=
  [("_id", VOid (Oid 9)); ("title", VStr "Old Vase"); ("price", VInt 12);
   ("in_stock", VStr "false")].

Definition null_price_product : dict :=
  [("_id", VOid (Oid 10)); ("title", VStr "Old Vase"); ("price", VNone)].

Definition null_category_product : dict :=
  [("_id", VOid (Oid 11)); ("title", VStr "Old Vase"); ("category", VNone)].

(** A store with more collections than the diagnostics list. *)
Definition crowded_db : Database :=
  {| collections :=
       list_to_map
         (map (fun c => (c, []))
            ["a"; "b"; "c"; "d"; "e"; "f"; "g"; "h"; "i"; "j"; "k"; "l"]);
     next_oid := 0; calls := [];
     name_attr := AttrValue (VStr "shop"); list_fault := None |}.

(** A validation outcome is sound when its report, if any, is not empty. *)
Definition sound {A} (x : V A) : Prop := x <> inl [].

(** * Facts about the validation layer *)

Lemma errors_vmap {A B} (f : A -> B) (x : V A) :
  errors_of (f <$$> x) = errors_of x.
Proof. destruct x; reflexivity. Qed.

Lemma errors_vap {A B} (f : V (A -> B)) (x : V A) :
  errors_of (f <**> x) = (errors_of f ++ errors_of x)%list.
Proof.
  destruct f, x; simpl; auto using app_nil_r.
Qed.

Lemma errors_at_loc {A} (p : loc_item) (x : V A) :
  errors_of (at_loc p x) = map (under p) (errors_of x).
Proof. destruct x; reflexivity. Qed.

Lemma reported {A} (x : V A) (e : error) :
  In e (errors_of x) -> exists errs, x = inl errs /\ In e errs.
Proof. destruct x; simpl; [eauto | tauto]. Qed.

Lemma float_of_zero : float_of_Z 0 = 0%float.
Proof. reflexivity. Qed.

(** A float below zero is not at least zero. *)
Lemma ltb_zero_not_leb (p : float) :
  PrimFloat.ltb p 0 = true -> PrimFloat.leb 0 p = false.
Proof.
  rewrite ltb_spec, leb_spec.
  destruct (Prim2SF p) as [[|]|[|]| |[|] m e]; cbn; congruence.
Qed.

Section FieldFacts.
Context `{Coercion}.

Lemma required_errors (k : field_kind) (name : string) (d : dict)
    {A} (chk : value -> V A) :
  (forall v, errors_of (chk v) = kind_errors k v) ->
  errors_of (required chk d name) = field_errors d (Field name k true).
Proof.
  intros Hk. unfold required, field_errors. rewrite errors_at_loc. simpl.
  destruct (dict_get d name); simpl; [now rewrite Hk | reflexivity].
Qed.

Lemma with_default_errors (k : field_kind) (name : string) (d : dict)
    {A} (dflt : A) (chk : value -> V A) :
  (forall v, errors_of (chk v) = kind_errors k v) ->
  errors_of (with_default dflt chk d name) = field_errors d (Field name k false).
Proof.
  intros Hk. unfold with_default, field_errors. rewrite errors_at_loc. simpl.
  destruct (dict_get d name); simpl; [now rewrite Hk | reflexivity].
Qed.

Lemma ill_typed_reported (k : field_kind) (v : value) (ek : error_kind) :
  ill_typed k v ek -> In (Err [] ek) (kind_errors k v).
Proof.
  destruct 1 as [v E|v Hv E|v E|v p E Hp|v E|v q E Hq|v E]; simpl.
  - unfold check_str. rewrite E. simpl. auto.
  - unfold check_optional, check_str. rewrite E.
    destruct v; simpl; auto.
  - unfold check_float_ge. rewrite E. simpl. auto.
  - unfold check_float_ge. rewrite E, float_of_zero, (ltb_zero_not_leb _ Hp).
    simpl. auto.
  - unfold check_int_ge. rewrite E. simpl. auto.
  - unfold check_int_ge. rewrite E.
    destruct (Z.leb_spec 1 q); [lia | simpl; auto].
  - unfold check_bool. rewrite E. simpl. auto.
Qed.

(** A violation of a field is among the errors of that field. *)
Lemma violates_field_errors (spec : list field_decl) (d : dict) (e : error) :
  violates spec d e -> In e (flat_map (field_errors d) spec).
Proof.
  intros Hv. apply in_flat_map.
  destruct Hv as [f Hf Hreq Hget | f v k Hf Hget Hill]; exists f; split; auto;
    unfold field_errors; rewrite Hget.
  - rewrite Hreq. simpl. auto.
  - apply ill_typed_reported in Hill.
    exact (in_map (under (LKey (field_name f))) _ _ Hill).
Qed.

(** The validators of schemas.py report, field by field, what the data
    model of the specification asks for. *)
Lemma Product_errors (d : dict) :
  errors_of (Product.fields d) = flat_map (field_errors d) Product_spec.
Proof.
  unfold Product.fields. rewrite !errors_vap, errors_vmap. simpl flat_map.
  rewrite (required_errors KStr "title"), (with_default_errors KOptStr "description"),
    (required_errors KFloatGe0 "price"), (required_errors KStr "category"),
    (with_default_errors KOptStr "image"), (with_default_errors KBool "in_stock");
    auto.
  rewrite app_nil_r, <- !app_assoc. reflexivity.
Qed.

Lemma OrderItem_errors (d : dict) :
  errors_of (OrderItem.fields d) = flat_map (field_errors d) OrderItem_spec.
Proof.
  unfold OrderItem.fields. rewrite !errors_vap, errors_vmap. simpl flat_map.
  rewrite (required_errors KStr "product_id"), (required_errors KStr "title"),
    (required_errors KFloatGe0 "price"), (required_errors KIntGe1 "quantity"),
    (with_default_errors KOptStr "image"); auto.
  rewrite app_nil_r, <- !app_assoc. reflexivity.
Qed.

Lemma Order_errors (d : dict) :
  errors_of (Order.fields d) =
  (errors_of (required (check_list (check_model OrderItem.fields)) d "items")
   ++ flat_map (field_errors d) Order_spec)%list.
Proof.
  unfold Order.fields. rewrite !errors_vap, errors_vmap. simpl flat_map.
  rewrite (required_errors KFloatGe0 "subtotal"), (required_errors KFloatGe0 "shipping"),
    (required_errors KFloatGe0 "tax"), (required_errors KFloatGe0 "total"),
    (required_errors KStr "customer_name"), (required_errors KStr "customer_email"),
    (required_errors KStr "address_line1"),
    (with_default_errors KOptStr "address_line2"),
    (required_errors KStr "city"), (required_errors KStr "state"),
    (required_errors KStr "postal_code"), (required_errors KStr "country"); auto.
  rewrite app_nil_r, <- !app_assoc. reflexivity.
Qed.

(** An error of an element is reported under the element's index. *)
Lemma check_elements_reports {A} (chk : value -> V A) (l : list value) :
  forall (start i : nat) (v : value) (e : error),
    nth_error l i = Some v -> In e (errors_of (chk v)) ->
    In (under (LIdx (start + i)) e) (errors_of (check_elements chk start l)).
Proof.
  induction l as [|x l IH]; intros start i v e Hnth Hin.
  - destruct i; discriminate.
  - simpl. rewrite errors_vap, errors_vmap, errors_at_loc. apply in_app_iff.
    destruct i as [|i]; simpl in Hnth.
    + injection Hnth as ->. left. rewrite Nat.add_0_r. now apply in_map.
    + right. replace (start + S i)%nat with (S start + i)%nat by lia. eauto.
Qed.
End FieldFacts.

(** * The diagnostics endpoint *)

Lemma utf8_take_length (n : nat) (s : string) :
  utf8_length (utf8_take n s) = Nat.min n (utf8_length s).
Proof.
  revert n. induction s as [|c s IH]; intros n; simpl.
  - now rewrite Nat.min_0_r.
  - destruct (is_continuation c) eqn:Ec; simpl.
    + now rewrite Ec.
    + destruct n as [|k]; simpl; [reflexivity|]. now rewrite Ec, IH.
Qed.

Lemma utf8_take_prefix (n : nat) (s : string) :
  exists rest, s = utf8_take n s ++ rest.
Proof.
  revert n. induction s as [|c s IH]; intros n; simpl.
  - now exists "".
  - destruct (is_continuation c).
    + destruct (IH n) as [rest Hr]. exists rest. rewrite Hr at 1. reflexivity.
    + destruct n as [|k].
      * now exists (String c s).
      * destruct (IH k) as [rest Hr]. exists rest. rewrite Hr at 1. reflexivity.
Qed.

Lemma getenv_truthy_spec (environ : gmap string string) (name : string) :
  getenv_truthy environ name = true <->
  exists s, getenv environ name = Some s /\ s <> "".
Proof.
  unfold getenv_truthy. destruct (getenv environ name) as [s|].
  - destruct (String.eqb_spec s ""); simpl; split.
    + discriminate.
    + intros (s' & [= <-] & Hne). contradiction.
    + eauto.
    + reflexivity.
  - split; [discriminate | intros (s & [=] & _)].
Qed.

(** The whole answer of [test_database], in every state of the store. *)
Lemma test_database_eq (db : option Database) (environ : gmap string string) :
  test_database db environ =
  [("backend", VStr "✅ Running");
   ("database",
    VStr match db with
         | None => "⚠️  Available but not initialized"
         | Some d =>
             match name_raises d with
             | Some e => "❌ Error: " ++ summary e
             | None =>
                 match list_collection_names d with
                 | inl e => "⚠️  Connected but Error: " ++ summary e
                 | inr _ => "✅ Connected & Working"
                 end
             end
         end);
   ("database_url",
    VStr (if getenv_truthy environ "DATABASE_URL" then "✅ Set" else "❌ Not Set"));
   ("database_name",
    VStr (if getenv_truthy environ "DATABASE_NAME" then "✅ Set" else "❌ Not Set"));
   ("connection_status",
    VStr match db with
         | None => "Not Connected"
         | Some d =>
             match name_raises d with
             | Some _ => "Not Connected"
             | None => "Connected"
             end
         end);
   ("collections",
    VList match db with
          | None => []
          | Some d =>
              match name_raises d with
              | Some _ => []
              | None =>
                  match list_collection_names d with
                  | inl _ => []
                  | inr names => map VStr (firstn 10 names)
                  end
              end
          end)].
Proof.
  unfold test_database. destruct db as [d|]; [|reflexivity].
  unfold hasattr_name, getattr_name, name_raises, call_list_collection_names.
  destruct (name_attr d) as [| |e]; [| |destruct (is_attribute_error e)];
    destruct (list_collection_names d); reflexivity.
Qed.

(** C7, as the code has it: [GET /test] always answers 200.  Whatever the
    store throws while it is inspected ends in the [database] string, cut to
    its first 50 characters; [collections] holds the first 10 names at most
    and is empty when the names could not be listed; the [database_url] and
    [database_name] flags depend on the environment alone, and a flag reads
    Set exactly when its variable is there with a value that is not
    empty. *)
Theorem diagnostics_never_fail (db : option Database) (environ : gmap string string) :
  status (get_test db environ) = 200%Z /\
  dict_get (test_database db environ) "database" =
    Some (VStr match db with
               | None => "⚠️  Available but not initialized"
               | Some d =>
                   match name_raises d with
                   | Some e => "❌ Error: " ++ summary e
                   | None =>
                       match list_collection_names d with
                       | inl e => "⚠️  Connected but Error: " ++ summary e
                       | inr _ => "✅ Connected & Working"
                       end
                   end
               end) /\
  dict_get (test_database db environ) "collections" =
    Some (VList match db with
                | None => []
                | Some d =>
                    match name_raises d with
                    | Some _ => []
                    | None =>
                        match list_collection_names d with
                        | inl _ => []
                        | inr names => map VStr (firstn 10 names)
                        end
                    end
                end) /\
  dict_get (test_database db environ) "database_url" =
    Some (VStr (if getenv_truthy environ "DATABASE_URL"
                then "✅ Set" else "❌ Not Set")) /\
  dict_get (test_database db environ) "database_name" =
    Some (VStr (if getenv_truthy environ "DATABASE_NAME"
                then "✅ Set" else "❌ Not Set")) /\
  (forall name, getenv_truthy environ name = true <->
                exists s, getenv environ name = Some s /\ s <> "") /\
  (forall e, utf8_length (summary e) = Nat.min 50 (utf8_length (err_str e)) /\
             exists rest, err_str e = summary e ++ rest) /\
  (forall names : list string, length (firstn 10 names) <= 10).
Proof.
  rewrite test_database_eq. repeat split; try reflexivity.
  - apply getenv_truthy_spec.
  - apply getenv_truthy_spec.
  - apply utf8_take_length.
  - apply utf8_take_prefix.
  - apply firstn_le_length.
Qed.

(** C7, as the claim words it, fails: a variable that is present with an
    empty value is flagged as not set. *)
Lemma diagnostics_flag_of_empty_variable :
  getenv empty_url "DATABASE_URL" = Some "" /\
  dict_get (test_database (Some empty_db) empty_url) "database_url" =
    Some (VStr "❌ Not Set").
Proof. split; reflexivity. Qed.

(** * The store that is not configured *)

(** C2: with [db] absent, the three catalogue and order handlers raise the
    500 with the fixed message and touch no store; [GET /test] still
    answers 200, and says that the database is not initialized and not
    connected. *)
Theorem unconfigured_store_is_reported `{Runtime} `{Coercion} :
  get_api_products None = (HTTPError 500 "Database not configured", None) /\
  (forall product,
      respond VDict (create_product product) None =
      (HTTPError 500 "Database not configured", None)) /\
  (forall order,
      respond VDict (create_order order) None =
      (HTTPError 500 "Database not configured", None)) /\
  (forall body,
      post_api_products body None =
      match model_validate (A:=Product.t) body with
      | inl errs => (Unprocessable (map (under (LKey "body")) errs), None)
      | inr _ => (HTTPError 500 "Database not configured", None)
      end) /\
  (forall body,
      post_api_orders body None =
      match model_validate (A:=Order.t) body with
      | inl errs => (Unprocessable (map (under (LKey "body")) errs), None)
      | inr _ => (HTTPError 500 "Database not configured", None)
      end) /\
  (forall environ,
      status (get_test None environ) = 200%Z /\
      dict_get (test_database None environ) "database" =
        Some (VStr "⚠️  Available but not initialized") /\
      dict_get (test_database None environ) "connection_status" =
        Some (VStr "Not Connected") /\
      dict_get (test_database None environ) "collections" = Some (VList [])).
Proof.
  repeat split; reflexivity.
Qed.

(** * Validation before the handler *)

Lemma sound_fail {A} (k : error_kind) : sound (@fail A k).
Proof. discriminate. Qed.

Lemma sound_inr {A} (a : A) : sound (inr a : V A).
Proof. discriminate. Qed.

Lemma sound_vmap {A B} (f : A -> B) (x : V A) : sound x -> sound (f <$$> x).
Proof. destruct x as [[|e l]|a]; unfold sound; simpl; congruence. Qed.

Lemma sound_vap {A B} (f : V (A -> B)) (x : V A) :
  sound f -> sound x -> sound (f <**> x).
Proof.
  destruct f as [[|e l]|g], x as [[|e' l']|a]; unfold sound; simpl; congruence.
Qed.

Lemma sound_at_loc {A} (p : loc_item) (x : V A) : sound x -> sound (at_loc p x).
Proof. destruct x as [[|e l]|a]; unfold sound; simpl; congruence. Qed.

Create HintDb sound.
#[export] Hint Resolve sound_fail sound_inr sound_vmap sound_vap sound_at_loc : sound.

Section Soundness.
Context `{Coercion}.

Lemma sound_check_str v : sound (check_str v).
Proof. unfold check_str. destruct (as_str v); auto with sound. Qed.

Lemma sound_check_bool v : sound (check_bool v).
Proof. unfold check_bool. destruct (as_bool v); auto with sound. Qed.

Lemma sound_check_float v : sound (check_float v).
Proof. unfold check_float. destruct (as_float v); auto with sound. Qed.

Lemma sound_check_float_ge b v : sound (check_float_ge b v).
Proof.
  unfold check_float_ge. destruct (as_float v); auto with sound.
  destruct (PrimFloat.leb _ _); auto with sound.
Qed.

Lemma sound_check_int_ge b v : sound (check_int_ge b v).
Proof.
  unfold check_int_ge. destruct (as_int v); auto with sound.
  destruct (b <=? _)%Z; auto with sound.
Qed.

Lemma sound_check_optional {A} (chk : value -> V A) v :
  (forall v, sound (chk v)) -> sound (check_optional chk v).
Proof. intros. unfold check_optional. destruct v; auto with sound. Qed.

Lemma sound_required {A} (chk : value -> V A) d name :
  (forall v, sound (chk v)) -> sound (required chk d name).
Proof. intros. unfold required. destruct (dict_get d name); auto with sound. Qed.

Lemma sound_with_default {A} (dflt : A) (chk : value -> V A) d name :
  (forall v, sound (chk v)) -> sound (with_default dflt chk d name).
Proof.
  intros. unfold with_default. destruct (dict_get d name); auto with sound.
Qed.

Lemma sound_check_elements {A} (chk : value -> V A) l :
  (forall v, sound (chk v)) -> forall i, sound (check_elements chk i l).
Proof. intros Hc. induction l; intros i; simpl; auto with sound. Qed.

Lemma sound_check_list {A} (chk : value -> V A) v :
  (forall v, sound (chk v)) -> sound (check_list chk v).
Proof.
  intros. unfold check_list.
  destruct v; auto using sound_check_elements with sound.
Qed.

Lemma sound_check_model {A} (fields : dict -> V A) v :
  (forall d, sound (fields d)) -> sound (check_model fields v).
Proof. intros. unfold check_model. destruct v; auto with sound. Qed.

#[local] Hint Resolve sound_check_str sound_check_bool sound_check_float
  sound_check_float_ge sound_check_int_ge sound_check_optional sound_required
  sound_with_default sound_check_list sound_check_model : sound.

Lemma sound_Product d : sound (Product.fields d).
Proof. unfold Product.fields. auto 20 with sound. Qed.

Lemma sound_OrderItem d : sound (OrderItem.fields d).
Proof. unfold OrderItem.fields. auto 20 with sound. Qed.

Lemma sound_Order d : sound (Order.fields d).
Proof.
  unfold Order.fields.
  repeat (apply sound_vap || apply sound_vmap);
    auto using sound_OrderItem with sound.
Qed.

Lemma report_nonempty (s : schema) (body : value) (errs : list error) :
  report s body = Some errs -> errs <> [].
Proof.
  destruct s; simpl; unfold check_model; intros Hr ->.
  - destruct body; try discriminate.
    destruct (Product.fields kv) as [errs|] eqn:E; [|discriminate].
    injection Hr as ->. now apply (sound_Product kv).
  - destruct body; try discriminate.
    destruct (Order.fields kv) as [errs|] eqn:E; [|discriminate].
    injection Hr as ->. now apply (sound_Order kv).
Qed.
End Soundness.

Lemma post_rejects `{Runtime} `{Coercion} (s : schema) (body : value)
    (errs : list error) (db : option Database) :
  report s body = Some errs ->
  post s body db = (Unprocessable (map (under (LKey "body")) errs), db).
Proof.
  destruct s; unfold report, post, post_api_products, post_api_orders, with_body;
    destruct (model_validate body); intros [= <-]; reflexivity.
Qed.

(** C9: a body that fails validation is answered with 422 and its report
    also when the store is not configured; the handler, and with it the
    check of [db], is never reached. *)
Theorem validation_precedes_store_check `{Runtime} `{Coercion}
    (s : schema) (body : value) (errs : list error) :
  report s body = Some errs ->
  post s body None = (Unprocessable (map (under (LKey "body")) errs), None) /\
  status (fst (post s body None)) = 422%Z /\
  post s body None <> (HTTPError 500 "Database not configured", None) /\
  errs <> [].
Proof.
  intros Hr. rewrite (post_rejects _ _ _ _ Hr). repeat split.
  - discriminate.
  - eapply report_nonempty, Hr.
Qed.

Section Rejection.
Context `{Runtime} `{Coercion}.

Lemma Product_violation_reported (d : dict) (e : error) :
  violates Product_spec d e -> In e (errors_of (Product.fields d)).
Proof. rewrite Product_errors. apply violates_field_errors. Qed.

Lemma OrderItem_violation_reported (d : dict) (e : error) :
  violates OrderItem_spec d e -> In e (errors_of (OrderItem.fields d)).
Proof. rewrite OrderItem_errors. apply violates_field_errors. Qed.

Lemma Order_violation_reported (d : dict) (e : error) :
  Order_violates d e -> In e (errors_of (Order.fields d)).
Proof.
  intros Hv. rewrite Order_errors. apply in_app_iff.
  destruct Hv as [e Hv|Hget|v Hget Hv|l i v Hget Hnth Hv|l i kv e Hget Hnth Hv].
  - right. now apply violates_field_errors.
  - left. unfold required. rewrite Hget. simpl. auto.
  - left. unfold required. rewrite Hget, errors_at_loc.
    apply (in_map (under (LKey "items")) _ (Err [] (WrongType TList))).
    destruct v; simpl; auto. now destruct (Hv l).
  - left. unfold required. rewrite Hget, errors_at_loc.
    apply (in_map (under (LKey "items")) _ (Err [LIdx i] (WrongType TModel))).
    apply (check_elements_reports _ l 0 i v (Err [] (WrongType TModel)) Hnth).
    destruct v; simpl; auto. now destruct (Hv kv).
  - left. unfold required. rewrite Hget, errors_at_loc.
    apply in_map.
    apply (check_elements_reports _ l 0 i (VDict kv) e Hnth).
    now apply OrderItem_violation_reported.
Qed.

Lemma invalid_body_reported (s : schema) (body : value) (e : error) :
  invalid_body s body e ->
  exists errs, report s body = Some errs /\ In e errs.
Proof.
  destruct 1 as [d e Hv|d e Hv]; simpl.
  - apply Product_violation_reported, reported in Hv as (errs & -> & Hin). eauto.
  - apply Order_violation_reported, reported in Hv as (errs & -> & Hin). eauto.
Qed.
End Rejection.

(** C5: a Product or Order payload that violates its schema (a required
    field is not there, a price below 0, a quantity below 1, a value of the
    wrong type) is answered with 422, the report names the field, and the
    store is left as it was, its record of calls included. *)
Theorem invalid_body_is_rejected `{Runtime} `{Coercion}
    (s : schema) (body : value) (e : error) (db : option Database) :
  invalid_body s body e ->
  exists errs,
    post s body db = (Unprocessable errs, db) /\
    status (Unprocessable errs) = 422%Z /\
    In (under (LKey "body") e) errs.
Proof.
  intros Hv. apply invalid_body_reported in Hv as (errs & Hr & Hin).
  exists (map (under (LKey "body")) errs). repeat split.
  - now apply post_rejects.
  - now apply in_map.
Qed.

(** C8, as the code has it: [items] is required, and that is all.  A
    payload without [items] is rejected and nothing is stored; for a payload
    whose [items] is the empty list the field adds nothing to the report. *)
Theorem order_needs_items_field `{Runtime} `{Coercion}
    (d : dict) (db : option Database) :
  (dict_get d "items" = None ->
   exists errs,
     post_api_orders (VDict d) db = (Unprocessable errs, db) /\
     In (Err [LKey "body"; LKey "items"] Missing) errs) /\
  (dict_get d "items" = Some (VList []) ->
   errors_of (Order.fields d) = flat_map (field_errors d) Order_spec).
Proof.
  split; intros Hget.
  - destruct (invalid_body_reported OrderSchema (VDict d) (Err [LKey "items"] Missing))
      as (errs & Hr & Hin); [now apply invalid_order, items_missing|].
    exists (map (under (LKey "body")) errs). split.
    + now apply (post_rejects OrderSchema).
    + now apply (in_map (under (LKey "body"))) in Hin.
  - rewrite Order_errors. unfold required. now rewrite Hget.
Qed.

(** * Facts about the store and about handlers *)

Lemma documents_record (op : store_op) (d : Database) (c : string) :
  documents (record op d) c = documents d c.
Proof. reflexivity. Qed.

Lemma documents_store (c : string) (docs : list dict) (next : N) (d : Database) :
  documents (store c docs next d) c = docs.
Proof. unfold documents, store. simpl. now rewrite lookup_insert_eq. Qed.

Lemma documents_store_other (c c' : string) (docs : list dict) (next : N)
    (d : Database) :
  c <> c' -> documents (store c docs next d) c' = documents d c'.
Proof. intros Hne. unfold documents, store. simpl. now rewrite lookup_insert_ne. Qed.


(** A comprehension fails as soon as one element does, and with an
    exception of some element. *)
Lemma for_each_fails {A B} (f : A -> exn + B) (l : list A) (x : A) (e : exn) :
  In x l -> f x = inl e ->
  exists y e', In y l /\ f y = inl e' /\ for_each f l = inl e'.
Proof.
  induction l as [|a l IH]; simpl; [tauto|]. intros Hin Hx.
  destruct (f a) as [e'|b] eqn:Ea; [now eauto 6|].
  destruct Hin as [->|Hin]; [congruence|].
  destruct (IH Hin Hx) as (y & e' & Hy & Hfy & ->). eauto 6.
Qed.

Section Listing.
Context `{Runtime} `{Coercion}.

(** [to_response], with the construction of the response spelled out. *)
Lemma to_response_eq (doc : dict) :
  to_response doc =
  match py_float (get_or doc "price" (VInt 0)) with
  | inl e => inl e
  | inr p =>
      match ProductResponse.Build (py_str (get doc "_id"))
              <$$> at_loc (LKey "title") (check_str (get doc "title"))
              <**> at_loc (LKey "description")
                     (check_optional check_str (get doc "description"))
              <**> inr p
              <**> at_loc (LKey "category")
                     (check_str (get_or doc "category" (VStr "General")))
              <**> at_loc (LKey "image")
                     (check_optional check_str (get doc "image"))
              <**> inr (py_bool (get_or doc "in_stock" (VBool true)))
      with
      | inl errs => inl (ValidationError errs)
      | inr r => inr r
      end
  end.
Proof.
  unfold to_response. destruct (py_float _) as [e|p]; [reflexivity|].
  unfold ProductResponse.init, ProductResponse.fields, required. simpl dict_get.
  unfold check_str at 1, check_float, check_bool.
  now rewrite as_str_str, as_float_float, as_bool_bool.
Qed.

Lemma to_response_not_http (doc : dict) (s : Z) (detail : string) :
  to_response doc <> inl (HTTPException s detail).
Proof.
  unfold to_response. destruct (py_float _) as [e|p] eqn:E.
  - intros [= ->]. unfold py_float in E.
    destruct (get_or doc "price" (VInt 0)) as [| | | |str| | |]; try discriminate.
    + destruct (is_infinity _); discriminate.
    + destruct (float_of_string str); discriminate.
  - unfold ProductResponse.init. destruct (ProductResponse.fields _); discriminate.
Qed.

(** What [list_products] does on a configured store. *)
Lemma list_products_run (d : Database) :
  list_products (Some d) =
  let d1 := record (CountDocuments "product") d in
  let d2 := if (Z.of_nat (length (documents d "product")) =? 0)%Z
            then snd (insert_many "product" sample_products d1) else d1 in
  (for_each to_response (documents d2 "product"),
   Some (record (Find "product") d2)).
Proof.
  unfold list_products, bind, the_db, on_db, lift, ret, count_documents. simpl.
  destruct (Z.of_nat (length (documents d "product")) =? 0)%Z; reflexivity.
Qed.
End Listing.

(** * The mapping of stored documents *)

(** C3: in the response of a stored document, [id] is the string form of
    the stored identity, and a field that the document lacks takes its
    default: [in_stock] true, [category] General, [price] 0.0, [description]
    and [image] null.  A missing optional field never makes the mapping
    fail: it succeeds whenever the title is a string and the optional
    fields that are there have values of their type. *)
Theorem mapping_defaults `{Runtime} `{Coercion} (doc : dict) :
  (forall r, to_response doc = inr r ->
     ProductResponse.id r = py_str (get doc "_id") /\
     (dict_get doc "in_stock" = None -> ProductResponse.in_stock r = true) /\
     (dict_get doc "category" = None -> ProductResponse.category r = "General") /\
     (dict_get doc "price" = None -> ProductResponse.price r = 0%float) /\
     (dict_get doc "description" = None -> ProductResponse.description r = None) /\
     (dict_get doc "image" = None -> ProductResponse.image r = None)) /\
  (forall t, as_str (get doc "title") = Some t ->
     (forall v, dict_get doc "description" = Some v ->
                v = VNone \/ exists s, as_str v = Some s) ->
     (forall v, dict_get doc "price" = Some v -> exists p, py_float v = inr p) ->
     (forall v, dict_get doc "category" = Some v -> exists s, as_str v = Some s) ->
     (forall v, dict_get doc "image" = Some v ->
                v = VNone \/ exists s, as_str v = Some s) ->
     exists r, to_response doc = inr r /\ ProductResponse.title r = t).
Proof.
  split.
  - intros r. rewrite to_response_eq. unfold get, get_or.
    destruct (py_float _) as [e|p] eqn:Ep; [discriminate|].
    destruct (check_str (default VNone (dict_get doc "title"))) as [?|t];
      destruct (check_optional check_str (default VNone (dict_get doc "description")))
        as [?|de] eqn:Ed;
      destruct (check_str (default (VStr "General") (dict_get doc "category")))
        as [?|c] eqn:Ec;
      destruct (check_optional check_str (default VNone (dict_get doc "image")))
        as [?|im] eqn:Ei;
      simpl; try discriminate.
    intros [= <-]. simpl. repeat split; intros Hm; rewrite Hm in *; simpl in *.
    + reflexivity.
    + unfold check_str in Ec. rewrite as_str_str in Ec. congruence.
    + vm_compute in Ep. congruence.
    + congruence.
    + congruence.
  - intros t Ht Hd Hp Hc Hi. rewrite to_response_eq. unfold get, get_or in *.
    assert (exists p, py_float (default (VInt 0) (dict_get doc "price")) = inr p)
      as [p ->].
    { destruct (dict_get doc "price") as [v|]; [now apply Hp|].
      exists 0%float. reflexivity. }
    assert (exists c, check_str (default (VStr "General") (dict_get doc "category"))
                      = inr c) as [c ->].
    { unfold check_str. destruct (dict_get doc "category") as [v|]; simpl.
      - destruct (Hc v eq_refl) as [s ->]. eauto.
      - rewrite as_str_str. eauto. }
    assert (forall k, (forall v, dict_get doc k = Some v ->
                                 v = VNone \/ exists s, as_str v = Some s) ->
                      exists o, check_optional check_str
                                  (default VNone (dict_get doc k)) = inr o) as Hopt.
    { intros k Hk. destruct (dict_get doc k) as [v|]; simpl; [|eauto].
      destruct (Hk v eq_refl) as [->|[s Hs]]; [simpl; eauto|].
      unfold check_optional, check_str. rewrite Hs. destruct v; simpl; eauto. }
    destruct (Hopt "description" Hd) as [de ->].
    destruct (Hopt "image" Hi) as [im ->].
    unfold check_str. rewrite Ht. simpl. eauto.
Qed.

(** C10: a stored product without a title makes the whole listing fail
    with a server error.  The mapping has no default for the title: the
    missing title is passed as [None], and the response model rejects it as
    no string. *)
Theorem listing_fails_on_missing_title `{Runtime} `{Coercion}
    (d : Database) (doc : dict) :
  In doc (documents d "product") ->
  dict_get doc "title" = None ->
  (exists e, to_response doc = inl e) /\
  (forall p, py_float (get_or doc "price" (VInt 0)) = inr p ->
     exists errs, to_response doc = inl (ValidationError errs) /\
                  In (Err [LKey "title"] (WrongType TStr)) errs) /\
  exists d',
    get_api_products (Some d) = (InternalServerError, Some d') /\
    status InternalServerError = 500%Z /\
    documents d' "product" = documents d "product".
Proof.
  intros Hin Hget.
  assert (forall p, py_float (get_or doc "price" (VInt 0)) = inr p ->
            exists errs, to_response doc = inl (ValidationError errs) /\
                         In (Err [LKey "title"] (WrongType TStr)) errs) as Hcause.
  { intros p Hp. rewrite to_response_eq, Hp. unfold get at 2. rewrite Hget.
    simpl default. unfold check_str at 1. rewrite as_str_none.
    match goal with
    | |- context [match ?x with inl _ => _ | inr _ => _ end] =>
        destruct (reported x (Err [LKey "title"] (WrongType TStr))) as (errs & -> & Hin')
    end; [|eauto].
    rewrite !errors_vap, errors_vmap. simpl. auto. }
  assert (exists e, to_response doc = inl e) as [e He].
  { destruct (py_float (get_or doc "price" (VInt 0))) as [e|p] eqn:Ep.
    - exists e. unfold to_response. now rewrite Ep.
    - destruct (Hcause p eq_refl) as (errs & -> & _). eauto. }
  repeat split; eauto.
  unfold get_api_products, respond. rewrite list_products_run.
  destruct (documents d "product") as [|doc0 docs] eqn:Ed; [contradiction|].
  change (Z.of_nat (length (doc0 :: docs)) =? 0)%Z with false. cbv beta iota zeta.
  rewrite documents_record, Ed.
  destruct (for_each_fails to_response (doc0 :: docs) doc e Hin He)
    as (y & e' & _ & Hy & ->).
  eexists. split; [|split; [reflexivity|]].
  - destruct e' as [s detail| |]; [|reflexivity..].
    now destruct (to_response_not_http y s detail).
  - rewrite !documents_record. exact Ed.
Qed.

(** * Seeding and creation *)

Section Catalogue.
Context `{Runtime} `{Coercion}.

Lemma check_str_ok (s : string) : check_str (VStr s) = inr s.
Proof. unfold check_str. now rewrite as_str_str. Qed.

Lemma check_optional_ok (o : option string) :
  check_optional check_str (dump_opt o) = inr o.
Proof. destruct o; simpl; [now rewrite check_str_ok | reflexivity]. Qed.

Lemma check_float_ge_ok (f : float) :
  PrimFloat.leb 0 f = true -> check_float_ge 0 (VFloat f) = inr f.
Proof.
  intros Hf. unfold check_float_ge. now rewrite as_float_float, float_of_zero, Hf.
Qed.

Lemma check_int_ge_ok (q : Z) : (1 <= q)%Z -> check_int_ge 1 (VInt q) = inr q.
Proof.
  intros Hq. unfold check_int_ge. rewrite as_int_int.
  destruct (Z.leb_spec 1 q); [reflexivity | lia].
Qed.

(** A product that went through the schema, stored under an identity, maps
    to a response with the same fields. *)
Lemma to_response_dumped (o : ObjectId) (p : Product.t) :
  to_response (("_id", VOid o) :: Product.dump p) = inr (response_of o p).
Proof.
  rewrite to_response_eq. unfold get, get_or. simpl.
  now rewrite !check_str_ok, !check_optional_ok.
Qed.

Lemma seeds_map (n : N) :
  for_each to_response (with_ids n sample_products).1 = inr (seed_responses n).
Proof.
  change (with_ids n sample_products).1 with
    [("_id", VOid (Oid n)) :: Product.dump
       (Product.Build "Minimalist Chair"
          (Some "A modern, comfortable chair with a minimalist design.")
          89.99 "Furniture"
          (Some "https://images.unsplash.com/photo-1549187774-b4e9b0445b41?q=80&w=1200&auto=format&fit=crop")
          true);
     ("_id", VOid (Oid (n + 1))) :: Product.dump
       (Product.Build "Wireless Headphones"
          (Some "Noise-cancelling over-ear headphones with 30h battery.")
          129.0 "Electronics"
          (Some "https://images.unsplash.com/photo-1518449037270-3c0758cd7ed0?q=80&w=1200&auto=format&fit=crop")
          true);
     ("_id", VOid (Oid (n + 1 + 1))) :: Product.dump
       (Product.Build "Ceramic Mug"
          (Some "Handmade ceramic mug for coffee or tea (350ml).")
          16.5 "Kitchen"
          (Some "https://images.unsplash.com/photo-1509463531436-7b8b53f6d4ba?q=80&w=1200&auto=format&fit=crop")
          true)].
  unfold for_each. now rewrite !to_response_dumped.
Qed.
End Catalogue.

(** C1: on a configured store whose product collection is empty, the first
    [GET /api/products] counts, inserts the three seed products in one
    [insert_many], reads them back and answers with exactly these three; a
    second call counts and reads, inserts nothing, and the collection still
    holds three documents. *)
Theorem first_listing_seeds `{Runtime} `{Coercion} (d : Database) :
  documents d "product" = [] ->
  exists d1 d2,
    get_api_products (Some d) =
      (Success (encode_products (seed_responses (next_oid d))), Some d1) /\
    calls d1 = (calls d ++ [CountDocuments "product";
                            InsertMany "product" sample_products;
                            Find "product"])%list /\
    documents d1 "product" = (with_ids (next_oid d) sample_products).1 /\
    length (documents d1 "product") = 3 /\
    map ProductResponse.title (seed_responses (next_oid d)) =
      ["Minimalist Chair"; "Wireless Headphones"; "Ceramic Mug"] /\
    get_api_products (Some d1) =
      (Success (encode_products (seed_responses (next_oid d))), Some d2) /\
    calls d2 = (calls d1 ++ [CountDocuments "product"; Find "product"])%list /\
    documents d2 "product" = documents d1 "product".
Proof.
  intros Hempty.
  set (d1 := record (Find "product")
               (snd (insert_many "product" sample_products
                       (record (CountDocuments "product") d)))).
  assert (documents d1 "product" = (with_ids (next_oid d) sample_products).1) as Hdocs.
  { unfold d1, insert_many. simpl.
    rewrite documents_record, documents_store, documents_record, Hempty.
    reflexivity. }
  exists d1, (record (Find "product") (record (CountDocuments "product") d1)).
  repeat split.
  - unfold get_api_products, respond. rewrite list_products_run, Hempty.
    cbv beta iota zeta. simpl length. cbv beta iota zeta.
    change (Z.of_nat 0 =? 0)%Z with true. cbv beta iota zeta.
    fold d1. rewrite <- (documents_record (Find "product")). fold d1.
    now rewrite Hdocs, seeds_map.
  - unfold d1, insert_many. simpl. now rewrite <- !app_assoc.
  - exact Hdocs.
  - now rewrite Hdocs.
  - unfold get_api_products, respond. rewrite list_products_run, Hdocs.
    cbv beta iota zeta. simpl length.
    change (Z.of_nat 3 =? 0)%Z with false. cbv beta iota zeta.
    now rewrite documents_record, Hdocs, seeds_map.
  - simpl. now rewrite <- !app_assoc.
Qed.

Section Creation.
Context `{Runtime} `{Coercion}.

(** What [create_document] does on a configured store, for a document that
    brings no identity of its own. *)
Lemma create_document_run {A} `{BaseModel A} (c : string) (data : A) (d : Database) :
  dict_get (model_dump data) "_id" = None ->
  create_document c data (Some d) =
  (inr (oid_str (Oid (next_oid d))),
   Some (store c (documents d c ++ [("_id", VOid (Oid (next_oid d))) :: model_dump data])%list
           (next_oid d + 1) (record (InsertOne c (model_dump data)) d))).
Proof.
  intros Hid. unfold create_document, bind, on_db, insert_one, with_id, ret.
  now rewrite Hid.
Qed.

Lemma OrderItem_roundtrip (i : OrderItem.t) :
  item_in_bounds i -> OrderItem.fields (OrderItem.dump i) = inr i.
Proof.
  intros [Hp Hq]. destruct i as [pid t p q im]. simpl in Hp, Hq.
  unfold OrderItem.fields, required, with_default. simpl.
  now rewrite !check_str_ok, check_optional_ok, check_float_ge_ok, check_int_ge_ok.
Qed.

Lemma items_roundtrip (items : list OrderItem.t) :
  Forall item_in_bounds items ->
  forall start,
    check_elements (check_model OrderItem.fields) start
      (map (fun i => VDict (OrderItem.dump i)) items) = inr items.
Proof.
  induction 1 as [|i items Hi _ IH]; intros start; simpl; [reflexivity|].
  now rewrite OrderItem_roundtrip, IH.
Qed.

(** The document of an order that keeps the per-field bounds passes the
    schema and gives the order back: nothing relates one field to
    another. *)
Lemma Order_roundtrip (o : Order.t) :
  order_in_bounds o -> Order.fields (Order.dump o) = inr o.
Proof.
  intros (Hi & Hsub & Hship & Htax & Htot). destruct o. simpl in *.
  unfold Order.fields, required, with_default, check_list. simpl.
  now rewrite items_roundtrip, !check_float_ge_ok, !check_str_ok, check_optional_ok.
Qed.
End Creation.

(** C4, as the code has it: for a payload that passes the Order schema,
    [POST /api/orders] answers with the new identity and the status
    received, and the order collection gains one document: the validated
    order under that identity, that is, every declared field with the
    payload's value brought to its declared type, null for an optional
    field the payload leaves out, and no other key.  A payload that is the
    document of an order within the per-field bounds is accepted whatever
    its totals, and is stored exactly as it was sent. *)
Theorem order_is_stored_as_validated `{Runtime} `{Coercion} (d : Database) :
  (forall body o, model_validate body = inr o ->
     exists d1,
       post_api_orders body (Some d) =
         (Success (VDict [("id", VStr (oid_str (Oid (next_oid d))));
                          ("status", VStr "received")]), Some d1) /\
       documents d1 "order" =
         (documents d "order"
          ++ [("_id", VOid (Oid (next_oid d))) :: Order.dump o])%list /\
       (forall c, c <> "order" -> documents d1 c = documents d c) /\
       calls d1 = (calls d ++ [InsertOne "order" (Order.dump o)])%list) /\
  (forall o, order_in_bounds o ->
     model_validate (VDict (Order.dump o)) = inr o /\
     exists d1,
       post_api_orders (VDict (Order.dump o)) (Some d) =
         (Success (VDict [("id", VStr (oid_str (Oid (next_oid d))));
                          ("status", VStr "received")]), Some d1) /\
       documents d1 "order" =
         (documents d "order"
          ++ [("_id", VOid (Oid (next_oid d))) :: Order.dump o])%list).
Proof.
  assert (forall body o, model_validate body = inr o ->
     exists d1,
       post_api_orders body (Some d) =
         (Success (VDict [("id", VStr (oid_str (Oid (next_oid d))));
                          ("status", VStr "received")]), Some d1) /\
       documents d1 "order" =
         (documents d "order"
          ++ [("_id", VOid (Oid (next_oid d))) :: Order.dump o])%list /\
       (forall c, c <> "order" -> documents d1 c = documents d c) /\
       calls d1 = (calls d ++ [InsertOne "order" (Order.dump o)])%list) as Hstore.
  { intros body o Hv. eexists. unfold post_api_orders, with_body. rewrite Hv.
    unfold respond, create_order, bind, the_db.
    rewrite create_document_run by reflexivity. unfold ret.
    repeat split.
    + now rewrite documents_store.
    + intros c Hc. rewrite documents_store_other by congruence.
      apply documents_record. }
  split; [exact Hstore|].
  intros o Ho. apply Order_roundtrip in Ho as Hv. split; [exact Hv|].
  destruct (Hstore (VDict (Order.dump o)) o Hv) as (d1 & Hpost & Hdocs & _).
  eauto.
Qed.


(** * Worked cases

    The theorems above at concrete requests, with the JSON coercion and the
    bare runtime. *)

(** C1 on the empty store. *)
Lemma first_listing_on_empty_store :
  documents empty_db "product" = [] /\
  exists d1,
    @get_api_products bare_runtime json_coercion (Some empty_db) =
      (Success (encode_products (seed_responses 0)), Some d1) /\
    length (documents d1 "product") = 3 /\
    exists d2,
      @get_api_products bare_runtime json_coercion (Some d1) =
        (Success (encode_products (seed_responses 0)), Some d2) /\
      documents d2 "product" = documents d1 "product".
Proof.
  split; [reflexivity|].
  destruct (@first_listing_seeds bare_runtime json_coercion empty_db eq_refl)
    as (d1 & d2 & H1 & _ & _ & H4 & _ & H6 & _ & H8).
  exists d1. repeat split; [exact H1 | exact H4 |].
  exists d2. split; [exact H6 | exact H8].
Defined.

(** C3 on a document that has an identity and a title only. *)
Lemma bare_product_takes_defaults :
  exists r,
    @to_response bare_runtime json_coercion bare_product = inr r /\
    ProductResponse.id r = "000000000000000000000007" /\
    ProductResponse.title r = "Old Vase" /\
    ProductResponse.in_stock r = true /\
    ProductResponse.category r = "General" /\
    ProductResponse.price r = 0%float /\
    ProductResponse.description r = None /\
    ProductResponse.image r = None.
Proof.
  destruct (@mapping_defaults bare_runtime json_coercion bare_product) as [HA HB].
  destruct (HB "Old Vase" eq_refl) as (r & Hr & Ht); try (intros v [=]).
  destruct (HA r Hr) as (Hid & H1 & H2 & H3 & H4 & H5).
  exists r. repeat split; auto.
Defined.

(** C4 on an order whose totals do not add up. *)
Lemma odd_order_is_stored :
  order_in_bounds (odd_order [mug_item]) /\
  PrimFloat.eqb (1 + 2 + 3) (Order.total (odd_order [mug_item])) = false /\
  exists d1,
    @post_api_orders bare_runtime json_coercion
      (VDict (Order.dump (odd_order [mug_item]))) (Some empty_db) =
      (Success (VDict [("id", VStr "000000000000000000000000");
                       ("status", VStr "received")]), Some d1) /\
    documents d1 "order" =
      [("_id", VOid (Oid 0)) :: Order.dump (odd_order [mug_item])].
Proof.
  assert (order_in_bounds (odd_order [mug_item])) as Hb.
  { repeat split; try reflexivity. repeat constructor. discriminate. }
  split; [exact Hb|]. split; [reflexivity|].
  destruct (proj2 (@order_is_stored_as_validated bare_runtime json_coercion
                     empty_db) _ Hb)
    as (_ & d1 & Hpost & Hdocs).
  exists d1. split; [exact Hpost | exact Hdocs].
Defined.

(** C4, as the claim words it, fails: a payload with an integer total, a
    key the schema does not declare and no second address line is accepted,
    and what is stored has the total as the nearest float, which is another
    number, lacks the undeclared key and has a null second address line. *)
Lemma order_is_not_stored_as_sent :
  dict_get loose_order "total" = Some (VInt 9007199254740993) /\
  dict_get loose_order "coupon" = Some (VStr "SPRING") /\
  dict_get loose_order "address_line2" = None /\
  fst (@post_api_orders bare_runtime json_coercion (VDict loose_order)
         (Some empty_db)) =
    Success (VDict [("id", VStr "000000000000000000000000");
                    ("status", VStr "received")]) /\
  option_map
    (fun d => map (fun doc => (dict_get doc "total", dict_get doc "coupon",
                               dict_get doc "address_line2"))
                (documents d "order"))
    (snd (@post_api_orders bare_runtime json_coercion (VDict loose_order)
            (Some empty_db))) =
    Some [(Some (VFloat 9007199254740992), None, Some VNone)].
Proof. repeat split; vm_compute; reflexivity. Qed.

(** C5 on a product with a negative price. *)
Lemma negative_price_is_rejected :
  @invalid_body json_coercion ProductSchema (VDict lamp_negative)
    (Err [LKey "price"] (GreaterThanEqual 0)) /\
  exists errs,
    @post bare_runtime json_coercion ProductSchema (VDict lamp_negative)
      (Some empty_db) = (Unprocessable errs, Some empty_db) /\
    status (Unprocessable errs) = 422%Z /\
    In (Err [LKey "body"; LKey "price"] (GreaterThanEqual 0)) errs.
Proof.
  assert (@invalid_body json_coercion ProductSchema (VDict lamp_negative)
            (Err [LKey "price"] (GreaterThanEqual 0))) as Hbad.
  { apply invalid_product.
    apply (ill_typed_field _ _ (Field "price" KFloatGe0 true) (VFloat (-1))).
    - simpl. auto.
    - reflexivity.
    - apply (negative_float _ (-1)%float); reflexivity. }
  split; [exact Hbad|].
  exact (@invalid_body_is_rejected bare_runtime json_coercion ProductSchema
           (VDict lamp_negative) _ (Some empty_db) Hbad).
Defined.



(** C8 on a payload without [items]. *)
Lemma order_without_items_is_rejected :
  dict_get lamp "items" = None /\
  exists errs,
    @post_api_orders bare_runtime json_coercion (VDict lamp) (Some empty_db) =
      (Unprocessable errs, Some empty_db) /\
    In (Err [LKey "body"; LKey "items"] Missing) errs.
Proof.
  split; [reflexivity|].
  exact (proj1 (@order_needs_items_field bare_runtime json_coercion lamp
                  (Some empty_db)) eq_refl).
Defined.

(** C8, as the claim words it, fails: an order whose [items] is the empty
    list is accepted and stored. *)
Lemma order_with_no_items_is_accepted :
  dict_get (Order.dump empty_order) "items" = Some (VList []) /\
  fst (@post_api_orders bare_runtime json_coercion
         (VDict (Order.dump empty_order)) (Some empty_db)) =
    Success (VDict [("id", VStr "000000000000000000000000");
                    ("status", VStr "received")]) /\
  option_map (fun d => documents d "order")
    (snd (@post_api_orders bare_runtime json_coercion
            (VDict (Order.dump empty_order)) (Some empty_db))) =
    Some [("_id", VOid (Oid 0)) :: Order.dump empty_order].
Proof. repeat split; vm_compute; reflexivity. Qed.

(** C9 on a product with a negative price, sent to an unconfigured
    store. *)
Lemma negative_price_rejected_without_store :
  @report json_coercion ProductSchema (VDict lamp_negative) =
    Some [Err [LKey "price"] (GreaterThanEqual 0)] /\
  @post bare_runtime json_coercion ProductSchema (VDict lamp_negative) None =
    (Unprocessable [Err [LKey "body"; LKey "price"] (GreaterThanEqual 0)], None).
Proof.
  split; [reflexivity|].
  exact (proj1 (@validation_precedes_store_check bare_runtime json_coercion
                  ProductSchema (VDict lamp_negative) _ eq_refl)).
Defined.

(** C10 on a store that holds a document without a title. *)
Lemma legacy_document_breaks_listing :
  In legacy_product (documents legacy_db "product") /\
  dict_get legacy_product "title" = None /\
  exists d',
    @get_api_products bare_runtime json_coercion (Some legacy_db) =
      (InternalServerError, Some d').
Proof.
  assert (In legacy_product (documents legacy_db "product")) as Hin
    by (left; reflexivity).
  split; [exact Hin|]. split; [reflexivity|].
  destruct (@listing_fails_on_missing_title bare_runtime json_coercion
              legacy_db legacy_product Hin eq_refl)
    as (_ & _ & d' & Hget & _).
  exists d'. exact Hget.
Defined.

(** The diagnostics on a store that throws while its names are listed: the
    message is cut after 50 characters, and [collections] stays empty. *)
Example diagnostics_on_unreachable_store :
  test_database (Some unreachable_db) ∅ =
  [("backend", VStr "✅ Running");
   ("database",
    VStr "⚠️  Connected but Error: localhost:27017: [Errno 111] Connection refused, T");
   ("database_url", VStr "❌ Not Set");
   ("database_name", VStr "❌ Not Set");
   ("connection_status", VStr "Connected");
   ("collections", VList [])].
Proof. vm_compute. reflexivity. Qed.

(** The diagnostics on a handle that raises before the store is reached. *)
Example diagnostics_on_broken_handle :
  test_database (Some broken_db) {["DATABASE_NAME" := "shop"]} =
  [("backend", VStr "✅ Running");
   ("database", VStr "❌ Error: handle closed");
   ("database_url", VStr "❌ Not Set");
   ("database_name", VStr "✅ Set");
   ("connection_status", VStr "Not Connected");
   ("collections", VList [])].
Proof. vm_compute. reflexivity. Qed.

(** An item with a quantity of zero is reported under its index, and the
    store is left alone. *)
Example quantity_zero_is_rejected :
  @post_api_orders bare_runtime json_coercion
    (VDict (Order.dump (odd_order [no_mug]))) (Some empty_db) =
  (Unprocessable
     [Err [LKey "body"; LKey "items"; LIdx 0; LKey "quantity"] (GreaterThanEqual 1)],
   Some empty_db).
Proof. vm_compute. reflexivity. Qed.

(** A title that is a number is reported as no string. *)
Example numeric_title_is_rejected :
  @post_api_products bare_runtime json_coercion
    (VDict [("title", VInt 3); ("price", VInt 2); ("category", VStr "Toys")])
    (Some empty_db) =
  (Unprocessable [Err [LKey "body"; LKey "title"] (WrongType TStr)], Some empty_db).
Proof. vm_compute. reflexivity. Qed.

(** A product created before the first listing keeps the seeds away: the
    collection is not empty any more. *)
Example creation_before_first_listing :
  fst (@get_api_products bare_runtime json_coercion
         (snd (@post_api_products bare_runtime json_coercion (VDict lamp)
                 (Some empty_db)))) =
  Success (encode_products
             [ProductResponse.Build "000000000000000000000000" "Desk Lamp" None
                24.5 "Lighting" None true]).
Proof. vm_compute. reflexivity. Qed.

(** * Further properties of the schemas *)

Lemma vmap_inr {A B} (f : A -> B) (x : V A) (b : B) :
  f <$$> x = inr b -> exists a, x = inr a /\ b = f a.
Proof. destruct x; simpl; [discriminate|]. intros [= <-]. eauto. Qed.

Lemma vap_inr {A B} (f : V (A -> B)) (x : V A) (b : B) :
  f <**> x = inr b -> exists g a, f = inr g /\ x = inr a /\ b = g a.
Proof. destruct f, x; simpl; try discriminate. intros [= <-]. eauto. Qed.

Lemma at_loc_inr {A} (p : loc_item) (x : V A) (a : A) :
  at_loc p x = inr a -> x = inr a.
Proof. destruct x; simpl; [discriminate | auto]. Qed.

(** An outcome with nothing to report is a validated object. *)
Lemma no_errors_inr {A} (x : V A) :
  sound x -> errors_of x = [] -> exists a, x = inr a.
Proof. destruct x as [errs|a]; simpl; [intros Hs ->; now destruct Hs | eauto]. Qed.

Section SchemaFacts.
Context `{Coercion}.

Lemma required_inr {A} (chk : value -> V A) (d : dict) (name : string) (a : A) :
  required chk d name = inr a ->
  exists v, dict_get d name = Some v /\ chk v = inr a.
Proof.
  unfold required. intros Hr. apply at_loc_inr in Hr.
  destruct (dict_get d name) as [v|]; [eauto | discriminate].
Qed.

Lemma with_default_inr {A} (dflt : A) (chk : value -> V A) (d : dict)
    (name : string) (a : A) :
  with_default dflt chk d name = inr a ->
  (dict_get d name = None /\ a = dflt) \/
  (exists v, dict_get d name = Some v /\ chk v = inr a).
Proof.
  unfold with_default. intros Hr. apply at_loc_inr in Hr.
  destruct (dict_get d name) as [v|]; [eauto | left]. now injection Hr.
Qed.

Lemma check_float_ge_inr (v : value) (f : float) :
  check_float_ge 0 v = inr f -> as_float v = Some f /\ PrimFloat.leb 0 f = true.
Proof.
  unfold check_float_ge. rewrite float_of_zero.
  destruct (as_float v) as [g|]; [|discriminate].
  destruct (PrimFloat.leb 0 g) eqn:E; [|discriminate]. now intros [= <-].
Qed.

Lemma check_int_ge_inr (v : value) (q : Z) :
  check_int_ge 1 v = inr q -> as_int v = Some q /\ (1 <= q)%Z.
Proof.
  unfold check_int_ge. destruct (as_int v) as [z|]; [|discriminate].
  destruct (Z.leb_spec 1 z); [|discriminate]. now intros [= <-].
Qed.

Lemma required_float_ge_inr (d : dict) (name : string) (f : float) :
  required (check_float_ge 0) d name = inr f -> PrimFloat.leb 0 f = true.
Proof.
  intros Hr. apply required_inr in Hr as (v & _ & Hv).
  now apply check_float_ge_inr in Hv.
Qed.

Lemma Product_roundtrip (p : Product.t) :
  PrimFloat.leb 0 (Product.price p) = true -> Product.fields (Product.dump p) = inr p.
Proof.
  intros Hp. destruct p as [t de pr c im st]. simpl in Hp.
  unfold Product.fields, required, with_default. simpl.
  unfold check_bool.
  now rewrite !check_str_ok, !check_optional_ok, check_float_ge_ok, as_bool_bool.
Qed.

(** What a payload must hold for the Product schema to give [p]. *)
Lemma Product_fields_inr (d : dict) (p : Product.t) :
  Product.fields d = inr p ->
  required check_str d "title" = inr (Product.title p) /\
  with_default None (check_optional check_str) d "description"
    = inr (Product.description p) /\
  required (check_float_ge 0) d "price" = inr (Product.price p) /\
  required check_str d "category" = inr (Product.category p) /\
  with_default None (check_optional check_str) d "image" = inr (Product.image p) /\
  with_default true check_bool d "in_stock" = inr (Product.in_stock p).
Proof.
  unfold Product.fields. intros Hf.
  apply vap_inr in Hf as (g5 & st & Hf & H6 & ->).
  apply vap_inr in Hf as (g4 & im & Hf & H5 & ->).
  apply vap_inr in Hf as (g3 & c & Hf & H4 & ->).
  apply vap_inr in Hf as (g2 & pr & Hf & H3 & ->).
  apply vap_inr in Hf as (g1 & de & Hf & H2 & ->).
  apply vmap_inr in Hf as (t & H1 & ->). simpl. auto 10.
Qed.

Lemma OrderItem_fields_inr (d : dict) (i : OrderItem.t) :
  OrderItem.fields d = inr i ->
  required (check_float_ge 0) d "price" = inr (OrderItem.price i) /\
  required (check_int_ge 1) d "quantity" = inr (OrderItem.quantity i).
Proof.
  unfold OrderItem.fields. intros Hf.
  apply vap_inr in Hf as (g4 & im & Hf & H5 & ->).
  apply vap_inr in Hf as (g3 & q & Hf & H4 & ->).
  apply vap_inr in Hf as (g2 & pr & Hf & H3 & ->).
  apply vap_inr in Hf as (g1 & t & Hf & H2 & ->).
  apply vmap_inr in Hf as (pid & H1 & ->). simpl. auto.
Qed.

Lemma OrderItem_valid_in_bounds (d : dict) (i : OrderItem.t) :
  OrderItem.fields d = inr i -> item_in_bounds i.
Proof.
  intros Hf. apply OrderItem_fields_inr in Hf as [Hp Hq]. split.
  - now apply required_float_ge_inr in Hp.
  - apply required_inr in Hq as (v & _ & Hv). now apply check_int_ge_inr in Hv.
Qed.

(** The elements of a validated list are the validated elements of the
    payload's list, one for one and in order. *)
Lemma check_elements_inr {A} (chk : value -> V A) (l : list value) :
  forall (start : nat) (xs : list A),
    check_elements chk start l = inr xs ->
    Forall2 (fun v x => chk v = inr x) l xs.
Proof.
  induction l as [|v l IH]; simpl; intros start xs Hc.
  - injection Hc as <-. constructor.
  - apply vap_inr in Hc as (g & rest & Hh & Ht & ->).
    apply vmap_inr in Hh as (x & Hx & ->). apply at_loc_inr in Hx.
    constructor; eauto.
Qed.

Lemma Order_fields_inr (d : dict) (o : Order.t) :
  Order.fields d = inr o ->
  required (check_list (check_model OrderItem.fields)) d "items"
    = inr (Order.items o) /\
  required (check_float_ge 0) d "subtotal" = inr (Order.subtotal o) /\
  required (check_float_ge 0) d "shipping" = inr (Order.shipping o) /\
  required (check_float_ge 0) d "tax" = inr (Order.tax o) /\
  required (check_float_ge 0) d "total" = inr (Order.total o).
Proof.
  unfold Order.fields. intros Hf.
  do 8 (apply vap_inr in Hf as (? & ? & Hf & _ & ->)).
  apply vap_inr in Hf as (g4 & tot & Hf & H5 & ->).
  apply vap_inr in Hf as (g3 & tax & Hf & H4 & ->).
  apply vap_inr in Hf as (g2 & ship & Hf & H3 & ->).
  apply vap_inr in Hf as (g1 & sub & Hf & H2 & ->).
  apply vmap_inr in Hf as (its & H1 & ->). simpl. auto 10.
Qed.

Lemma Order_items_inr (d : dict) (items : list OrderItem.t) :
  required (check_list (check_model OrderItem.fields)) d "items" = inr items ->
  exists l, dict_get d "items" = Some (VList l) /\
            Forall2 (fun v i => check_model OrderItem.fields v = inr i) l items.
Proof.
  intros Hr. apply required_inr in Hr as (v & Hget & Hv).
  destruct v; try discriminate. simpl in Hv.
  apply check_elements_inr in Hv. eauto.
Qed.

Lemma Order_valid_in_bounds (d : dict) (o : Order.t) :
  Order.fields d = inr o -> order_in_bounds o.
Proof.
  intros Hf. apply Order_fields_inr in Hf as (Hi & Hsub & Hship & Htax & Htot).
  repeat split; eauto using required_float_ge_inr.
  apply Order_items_inr in Hi as (l & _ & Hall).
  induction Hall as [|v i l items Hv _ IH]; constructor; auto.
  destruct v; try discriminate. now apply OrderItem_valid_in_bounds in Hv.
Qed.
End SchemaFacts.

(** X1: the Product schema accepts on the price bound alone.  A payload it
    accepts gives a product whose price is at least 0 (so no NaN), and the
    document of any product with such a price is accepted and gives that
    product back. *)
Theorem product_schema_accepts_on_price `{Coercion} :
  (forall body p, model_validate body = inr p ->
     PrimFloat.leb 0 (Product.price p) = true) /\
  (forall p, PrimFloat.leb 0 (Product.price p) = true ->
     model_validate (VDict (Product.dump p)) = inr p).
Proof.
  split.
  - intros body p Hv. destruct body; try discriminate. simpl in Hv.
    apply Product_fields_inr in Hv as (_ & _ & Hp & _).
    now apply required_float_ge_inr in Hp.
  - intros p Hp. now apply Product_roundtrip.
Qed.

(** X2: a payload that passes the Order schema gives an order within the
    per-field bounds, and its items are the validated elements of the
    payload's list, one for one and in the same order. *)
Theorem validated_order_keeps_items `{Coercion} (d : dict) (o : Order.t) :
  Order.fields d = inr o ->
  order_in_bounds o /\
  exists l,
    dict_get d "items" = Some (VList l) /\
    length (Order.items o) = length l /\
    Forall2 (fun v i => model_validate v = inr i) l (Order.items o).
Proof.
  intros Hf. split; [now apply Order_valid_in_bounds in Hf|].
  apply Order_fields_inr in Hf as (Hi & _).
  apply Order_items_inr in Hi as (l & Hget & Hall).
  exists l. repeat split; auto. symmetry. eapply Forall2_length, Hall.
Qed.

(** X3: the report of the Product and OrderItem schemas is the list of the
    errors of every declared field, in declaration order, and a payload is
    accepted exactly when that list is empty. *)
Theorem report_collects_every_field `{Coercion} (d : dict) :
  errors_of (Product.fields d) = flat_map (field_errors d) Product_spec /\
  ((exists p, Product.fields d = inr p) <->
   flat_map (field_errors d) Product_spec = []) /\
  errors_of (OrderItem.fields d) = flat_map (field_errors d) OrderItem_spec /\
  ((exists i, OrderItem.fields d = inr i) <->
   flat_map (field_errors d) OrderItem_spec = []).
Proof.
  repeat split.
  - apply Product_errors.
  - intros [p Hp]. rewrite <- Product_errors, Hp. reflexivity.
  - intros He. apply no_errors_inr; [apply sound_Product|].
    now rewrite Product_errors.
  - apply OrderItem_errors.
  - intros [i Hi]. rewrite <- OrderItem_errors, Hi. reflexivity.
  - intros He. apply no_errors_inr; [apply sound_OrderItem|].
    now rewrite OrderItem_errors.
Qed.

(** X4: validation reads the declared fields only: two payloads that agree
    on them are validated alike, whatever other keys they carry. *)
Theorem undeclared_keys_are_ignored `{Coercion} (d d' : dict) :
  (agree_on Product_spec d d' -> Product.fields d = Product.fields d') /\
  (agree_on OrderItem_spec d d' -> OrderItem.fields d = OrderItem.fields d') /\
  (dict_get d "items" = dict_get d' "items" -> agree_on Order_spec d d' ->
   Order.fields d = Order.fields d').
Proof.
  assert (forall spec name, agree_on spec d d' ->
            In name (map field_name spec) ->
            dict_get d name = dict_get d' name) as Hag.
  { intros spec name Ha Hin. apply in_map_iff in Hin as (f & <- & Hf). auto. }
  repeat split.
  - intros Ha. unfold Product.fields, required, with_default.
    now rewrite !(Hag _ _ Ha) by (simpl; auto 20).
  - intros Ha. unfold OrderItem.fields, required, with_default.
    now rewrite !(Hag _ _ Ha) by (simpl; auto 20).
  - intros Hi Ha. unfold Order.fields, required, with_default.
    now rewrite Hi, !(Hag _ _ Ha) by (simpl; auto 20).
Qed.

(** X5: in a validated product a field that the payload leaves out takes
    its declared default: [description] and [image] are [None], [in_stock]
    is true; a null [description] or [image] is [None] as well. *)
Theorem omitted_fields_take_defaults `{Coercion} (d : dict) (p : Product.t) :
  Product.fields d = inr p ->
  (dict_get d "description" = None -> Product.description p = None) /\
  (dict_get d "image" = None -> Product.image p = None) /\
  (dict_get d "in_stock" = None -> Product.in_stock p = true) /\
  (dict_get d "description" = Some VNone -> Product.description p = None) /\
  (dict_get d "image" = Some VNone -> Product.image p = None).
Proof.
  intros Hf. apply Product_fields_inr in Hf as (_ & Hde & _ & _ & Him & Hst).
  apply with_default_inr in Hde, Him, Hst.
  repeat split; intros Hget.
  - destruct Hde as [[_ ->]|(v & Hv & _)]; congruence.
  - destruct Him as [[_ ->]|(v & Hv & _)]; congruence.
  - destruct Hst as [[_ ->]|(v & Hv & _)]; congruence.
  - destruct Hde as [[Hn _]|(v & Hv & Hc)]; [congruence|].
    rewrite Hget in Hv. injection Hv as <-. simpl in Hc. congruence.
  - destruct Him as [[Hn _]|(v & Hv & Hc)]; [congruence|].
    rewrite Hget in Hv. injection Hv as <-. simpl in Hc. congruence.
Qed.

(** * Further properties of the document mapping *)

Section MappingFacts.
Context `{Runtime} `{Coercion}.

Lemma check_str_inr (v : value) (s : string) :
  check_str v = inr s <-> as_str v = Some s.
Proof.
  unfold check_str. destruct (as_str v); split; intros [=]; subst; reflexivity.
Qed.

Lemma check_optional_inr (v : value) (o : option string) :
  check_optional check_str v = inr o <->
  (v = VNone /\ o = None) \/
  (v <> VNone /\ exists s, as_str v = Some s /\ o = Some s).
Proof.
  unfold check_optional, check_str. split.
  - destruct v; try (intros [= <-]; now left);
      (destruct (as_str _) as [str|] eqn:E; simpl; [|discriminate]);
      intros [= <-]; right; (split; [discriminate | eauto]).
  - intros [[-> ->]|(Hv & s & E & ->)]; [reflexivity|].
    destruct v; try contradiction; now rewrite E.
Qed.

(** What a document must hold for [to_response] to give [r]. *)
Lemma to_response_inr (doc : dict) (r : ProductResponse.t) :
  to_response doc = inr r <->
  ProductResponse.id r = py_str (get doc "_id") /\
  check_str (get doc "title") = inr (ProductResponse.title r) /\
  check_optional check_str (get doc "description")
    = inr (ProductResponse.description r) /\
  py_float (get_or doc "price" (VInt 0)) = inr (ProductResponse.price r) /\
  check_str (get_or doc "category" (VStr "General"))
    = inr (ProductResponse.category r) /\
  check_optional check_str (get doc "image") = inr (ProductResponse.image r) /\
  ProductResponse.in_stock r = py_bool (get_or doc "in_stock" (VBool true)).
Proof.
  rewrite to_response_eq. split.
  - destruct (py_float _) as [e|p]; [discriminate|].
    destruct (_ <**> _) as [errs|r'] eqn:E; [discriminate|]. intros [= ->].
    apply vap_inr in E as (g5 & st & E & H6 & ->).
    apply vap_inr in E as (g4 & im & E & H5 & ->).
    apply vap_inr in E as (g3 & c & E & H4 & ->).
    apply vap_inr in E as (g2 & pr & E & H3 & ->).
    apply vap_inr in E as (g1 & de & E & H2 & ->).
    apply vmap_inr in E as (t & H1 & ->).
    apply at_loc_inr in H1, H2, H4, H5.
    injection H3 as <-. injection H6 as <-. simpl. auto 10.
  - destruct r as [i t de pr c im st]. simpl.
    intros (-> & -> & -> & -> & -> & -> & ->). reflexivity.
Qed.
End MappingFacts.

(** X6: [to_response] gives a response exactly for the documents whose
    title is a string, whose price, if any, is something [float] accepts,
    whose category, if any, is a string, and whose description and image,
    if any, are strings or null; then every field of the response is the
    stored value brought to its type, or the default of a key that is not
    there. *)
Theorem response_is_the_coerced_document `{Runtime} `{Coercion}
    (doc : dict) (r : ProductResponse.t) :
  to_response doc = inr r <->
  ProductResponse.id r = py_str (get doc "_id") /\
  as_str (get doc "title") = Some (ProductResponse.title r) /\
  ((get doc "description" = VNone /\ ProductResponse.description r = None) \/
   (get doc "description" <> VNone /\
    exists s, as_str (get doc "description") = Some s /\
              ProductResponse.description r = Some s)) /\
  py_float (get_or doc "price" (VInt 0)) = inr (ProductResponse.price r) /\
  as_str (get_or doc "category" (VStr "General"))
    = Some (ProductResponse.category r) /\
  ((get doc "image" = VNone /\ ProductResponse.image r = None) \/
   (get doc "image" <> VNone /\
    exists s, as_str (get doc "image") = Some s /\
              ProductResponse.image r = Some s)) /\
  ProductResponse.in_stock r = py_bool (get_or doc "in_stock" (VBool true)).
Proof.
  rewrite to_response_inr, !check_str_inr, !check_optional_inr. reflexivity.
Qed.

(** X7: a null is not a missing key.  The defaults of [to_response] apply
    to keys that are not there: a price that is null makes [float] raise a
    type error, a category that is null is rejected by the response model,
    and an [in_stock] that is null maps to false. *)
Theorem null_is_not_missing `{Runtime} `{Coercion} (doc : dict) :
  (dict_get doc "price" = Some VNone ->
   exists msg, to_response doc = inl (type_error msg)) /\
  (dict_get doc "category" = Some VNone ->
   forall p, py_float (get_or doc "price" (VInt 0)) = inr p ->
   exists errs, to_response doc = inl (ValidationError errs) /\
                In (Err [LKey "category"] (WrongType TStr)) errs) /\
  (dict_get doc "in_stock" = Some VNone ->
   forall r, to_response doc = inr r -> ProductResponse.in_stock r = false).
Proof.
  repeat split.
  - intros Hget. unfold to_response, get_or. rewrite Hget. simpl. eauto.
  - intros Hget p Hp. rewrite to_response_eq, Hp. unfold get_or at 1.
    rewrite Hget. simpl default.
    replace (check_str VNone) with (@fail string (WrongType TStr))
      by (unfold check_str; now rewrite as_str_none).
    match goal with
    | |- context [match ?x with inl _ => _ | inr _ => _ end] =>
        destruct (reported x (Err [LKey "category"] (WrongType TStr)))
          as (errs & -> & Hin)
    end; [|eauto].
    rewrite !errors_vap, errors_vmap, !in_app_iff. simpl. auto 10.
  - intros Hget r Hr. apply to_response_inr in Hr as (_ & _ & _ & _ & _ & _ & ->).
    unfold get_or. now rewrite Hget.
Qed.

Section ConversionFacts.
Context `{Runtime} `{Coercion}.

Lemma optional_text_ok (doc : dict) (k : string) :
  (forall v, dict_get doc k = Some v -> v = VNone \/ exists s, as_str v = Some s) ->
  exists o, check_optional check_str (get doc k) = inr o.
Proof.
  intros Hk. unfold get. destruct (dict_get doc k) as [v|]; simpl; [|eauto].
  destruct (Hk v eq_refl) as [->|[s Hs]]; [simpl; eauto|].
  unfold check_optional, check_str. rewrite Hs. destruct v; simpl; eauto.
Qed.

Lemma category_text_ok (doc : dict) :
  (forall v, dict_get doc "category" = Some v -> exists s, as_str v = Some s) ->
  exists c, check_str (get_or doc "category" (VStr "General")) = inr c.
Proof.
  intros Hc. unfold get_or, check_str.
  destruct (dict_get doc "category") as [v|]; simpl.
  - destruct (Hc v eq_refl) as [s ->]. eauto.
  - rewrite as_str_str. eauto.
Qed.
End ConversionFacts.

(** X8: stored values of another type are converted, not refused.  For a
    document whose title is a string and whose description, category and
    image are absent or of their type, an integer price gives a response
    with the nearest float as its price, unless that float is infinite, in
    which case [float] raises an overflow error; and whatever is stored as
    [in_stock] the response holds its truth value, so that any text that is
    not empty, the text false among them, maps to true, and the number 0
    maps to false. *)
Theorem loosely_typed_fields_are_converted `{Runtime} `{Coercion}
    (doc : dict) (t : string) (z : Z) :
  as_str (get doc "title") = Some t ->
  (forall v, dict_get doc "description" = Some v ->
             v = VNone \/ exists s, as_str v = Some s) ->
  (forall v, dict_get doc "category" = Some v -> exists s, as_str v = Some s) ->
  (forall v, dict_get doc "image" = Some v ->
             v = VNone \/ exists s, as_str v = Some s) ->
  dict_get doc "price" = Some (VInt z) ->
  if is_infinity (float_of_Z z)
  then exists msg, to_response doc = inl (Raised (PyError "OverflowError" msg))
  else exists r,
         to_response doc = inr r /\
         ProductResponse.price r = float_of_Z z /\
         ProductResponse.in_stock r = py_bool (get_or doc "in_stock" (VBool true)) /\
         (forall s, dict_get doc "in_stock" = Some (VStr s) ->
            ProductResponse.in_stock r = negb (String.eqb s "")) /\
         (forall n, dict_get doc "in_stock" = Some (VInt n) ->
            ProductResponse.in_stock r = negb (n =? 0)%Z).
Proof.
  intros Ht Hd Hc Hi Hp.
  destruct (is_infinity (float_of_Z z)) eqn:Einf.
  - unfold to_response, get_or. rewrite Hp. simpl. rewrite Einf. eauto.
  - destruct (optional_text_ok doc "description" Hd) as [de Hde].
    destruct (optional_text_ok doc "image" Hi) as [im Him].
    destruct (category_text_ok doc Hc) as [c Hcat].
    exists (ProductResponse.Build (py_str (get doc "_id")) t de (float_of_Z z) c im
              (py_bool (get_or doc "in_stock" (VBool true)))).
    split.
    + apply to_response_inr. simpl. repeat split; auto.
      * now apply check_str_inr.
      * unfold get_or. rewrite Hp. simpl. now rewrite Einf.
    + simpl. repeat split.
      * intros s Hs. unfold get_or. now rewrite Hs.
      * intros n Hn. unfold get_or. now rewrite Hn.
Qed.

(** * Further properties of the listing *)

Lemma for_each_inr {A B} (f : A -> exn + B) (l : list A) (bs : list B) :
  for_each f l = inr bs <-> Forall2 (fun a b => f a = inr b) l bs.
Proof.
  revert bs. induction l as [|a l IH]; intros bs; simpl.
  - split; [intros [= <-]; constructor | now inversion 1].
  - split.
    + destruct (f a) as [e|b] eqn:Ea; [discriminate|].
      destruct (for_each f l) as [e|bs'] eqn:El; [discriminate|].
      intros [= <-]. constructor; [exact Ea | now apply IH].
    + inversion 1 as [|a' b l' bs' Ha Hl]; subst. rewrite Ha.
      apply IH in Hl. now rewrite Hl.
Qed.


Lemma respond_snd {A} (encode : A -> value) (h : Handler A) (db : option Database) :
  snd (respond encode h db) = snd (h db).
Proof.
  unfold respond. destruct (h db) as [[[| |]|a] db']; reflexivity.
Qed.

Section ListingFacts.
Context `{Runtime} `{Coercion}.

Lemma list_products_after (d : Database) :
  list_products (Some d) =
  (for_each to_response (documents (after_listing d) "product"),
   Some (after_listing d)).
Proof.
  rewrite list_products_run. unfold after_listing. cbv zeta.
  now rewrite documents_record.
Qed.

Lemma after_listing_documents (d : Database) :
  documents (after_listing d) "product" =
  match documents d "product" with
  | [] => (with_ids (next_oid d) sample_products).1
  | _ => documents d "product"
  end.
Proof.
  unfold after_listing. rewrite documents_record.
  destruct (documents d "product") as [|doc docs] eqn:E.
  - simpl. unfold insert_many. simpl.
    now rewrite documents_store, documents_record, E.
  - change (Z.of_nat (length (doc :: docs)) =? 0)%Z with false.
    cbv beta iota. now rewrite documents_record.
Qed.

Lemma after_listing_other (d : Database) (c : string) :
  c <> "product" -> documents (after_listing d) c = documents d c.
Proof.
  intros Hc. unfold after_listing. rewrite documents_record.
  destruct (Z.of_nat (length (documents d "product")) =? 0)%Z.
  - unfold insert_many. simpl.
    rewrite documents_store_other by congruence. reflexivity.
  - reflexivity.
Qed.
End ListingFacts.

(** X9: a listing that succeeds has one product for each stored document,
    in the stored order, and the [id] of each is the string form of the
    identity of its document. *)
Theorem listing_follows_the_collection `{Runtime} `{Coercion}
    (d : Database) (rs : list ProductResponse.t) (db' : option Database) :
  list_products (Some d) = (inr rs, db') ->
  exists d',
    db' = Some d' /\
    Forall2 (fun doc r => to_response doc = inr r) (documents d' "product") rs /\
    length rs = length (documents d' "product") /\
    map ProductResponse.id rs =
      map (fun doc => py_str (get doc "_id")) (documents d' "product").
Proof.
  rewrite list_products_after. intros [= Hrs <-].
  exists (after_listing d). apply for_each_inr in Hrs.
  repeat split; auto.
  - symmetry. eapply Forall2_length, Hrs.
  - induction Hrs as [|doc r docs rs Hr _ IH]; simpl; [reflexivity|].
    apply to_response_inr in Hr as (-> & _). now rewrite IH.
Qed.

(** X10: [GET /api/products] on a configured store never leaves the product
    collection empty, writes to it only when it was empty, and leaves every
    other collection as it was. *)
Theorem listing_only_seeds_an_empty_collection `{Runtime} `{Coercion}
    (d : Database) :
  exists d',
    snd (get_api_products (Some d)) = Some d' /\
    documents d' "product" <> [] /\
    (documents d "product" <> [] ->
     documents d' "product" = documents d "product" /\
     calls d' = (calls d ++ [CountDocuments "product"; Find "product"])%list /\
     next_oid d' = next_oid d) /\
    (forall c, c <> "product" -> documents d' c = documents d c).
Proof.
  exists (after_listing d). repeat split.
  - unfold get_api_products. now rewrite respond_snd, list_products_after.
  - rewrite after_listing_documents.
    destruct (documents d "product"); discriminate.
  - rewrite after_listing_documents. now destruct (documents d "product").
  - unfold after_listing.
    destruct (documents d "product") as [|doc docs]; [contradiction|].
    change (Z.of_nat (length (doc :: docs)) =? 0)%Z with false.
    simpl. now rewrite <- app_assoc.
  - unfold after_listing.
    destruct (documents d "product") as [|doc docs]; [contradiction|].
    reflexivity.
  - apply after_listing_other.
Qed.


Section ServiceFacts.
Context `{Runtime} `{Coercion}.


End ServiceFacts.


(** * Further properties of the diagnostics *)

(** X13: the answer of [test_database] always has the same six keys in the
    same order; [connection_status] reads Connected exactly when the handle
    is there and looking up its name lets no exception out, which is so
    for a handle that has a name, for one that has none and for one whose
    name raises an attribute error, and also when the collections cannot
    be listed; and when they can, [collections] holds ten names or all of
    them, whichever is less. *)
Theorem diagnostics_shape (db : option Database) (environ : gmap string string) :
  map fst (test_database db environ) =
    ["backend"; "database"; "database_url"; "database_name";
     "connection_status"; "collections"] /\
  dict_get (test_database db environ) "backend" = Some (VStr "✅ Running") /\
  (dict_get (test_database db environ) "connection_status"
     = Some (VStr "Connected") <->
   exists d, db = Some d /\ name_raises d = None) /\
  (forall d, name_raises d = None <->
     (forall e, name_attr d = AttrRaises e -> is_attribute_error e = true)) /\
  (forall d names,
     db = Some d -> name_raises d = None ->
     list_collection_names d = inr names ->
     exists shown,
       dict_get (test_database db environ) "collections" = Some (VList shown) /\
       length shown = Nat.min 10 (length names)).
Proof.
  rewrite test_database_eq. repeat split.
  - simpl. destruct db as [d|]; [|discriminate].
    destruct (name_raises d) eqn:E; [discriminate|]. eauto.
  - intros (d & -> & Hd). simpl. now rewrite Hd.
  - unfold name_raises. intros Hn e He. rewrite He in Hn.
    now destruct (is_attribute_error e).
  - unfold name_raises. intros Hn. destruct (name_attr d) as [| |e]; auto.
    now rewrite (Hn e eq_refl).
  - intros d names -> Hd Hn. simpl. rewrite Hd, Hn.
    exists (map VStr (firstn 10 names)).
    split; [reflexivity | now rewrite length_map, length_firstn].
Qed.

(** * The User schema *)

Lemma umap_inr {A B} (f : A -> B) (x : UV A) (b : B) :
  umap f x = inr b -> exists a, x = inr a /\ b = f a.
Proof. destruct x; simpl; [discriminate|]. intros [= <-]. eauto. Qed.

Lemma uap_inr {A B} (f : UV (A -> B)) (x : UV A) (b : B) :
  uap f x = inr b -> exists g a, f = inr g /\ x = inr a /\ b = g a.
Proof. destruct f, x; simpl; try discriminate. intros [= <-]. eauto. Qed.

Lemma uap_inl_r {A B} (f : UV (A -> B)) (errs : list user_error) (e : user_error) :
  In e errs -> exists errs', uap f (inl errs : UV A) = inl errs' /\ In e errs'.
Proof.
  intros Hin. destruct f as [errs0|g]; simpl; eexists; split; eauto.
  apply in_app_iff. auto.
Qed.

Lemma uap_inl_l {A B} (errs : list user_error) (x : UV A) (e : user_error) :
  In e errs -> exists errs', uap (inl errs : UV (A -> B)) x = inl errs' /\ In e errs'.
Proof.
  intros Hin. destruct x as [errs0|a]; simpl; eexists; split; eauto.
  apply in_app_iff. auto.
Qed.

Lemma plain_inr {A} (x : V A) (a : A) : plain x = inr a -> x = inr a.
Proof. destruct x; simpl; [discriminate | now intros [= ->]]. Qed.

(** X14: a payload that passes the User schema gives a user whose age is
    absent or between 0 and 120.  An age that the payload leaves out or
    gives as null stays absent, and only those do; an age that is there is
    the integer read from a value that is not null.  [is_active] is true
    when it is left out. *)
Theorem validated_user_age_is_bounded `{Coercion} (d : dict) (u : User.t) :
  User.fields d = inr u ->
  (dict_get d "age" = None -> User.age u = None) /\
  (dict_get d "age" = Some VNone -> User.age u = None) /\
  (User.age u = None ->
   dict_get d "age" = None \/ dict_get d "age" = Some VNone) /\
  (forall z, User.age u = Some z ->
     (0 <= z <= 120)%Z /\
     exists v, dict_get d "age" = Some v /\ v <> VNone /\ as_int v = Some z) /\
  (dict_get d "is_active" = None -> User.is_active u = true).
Proof.
  unfold User.fields. intros Hf.
  apply uap_inr in Hf as (g4 & st & Hf & Hst & ->).
  apply uap_inr in Hf as (g3 & ag & Hf & Hag & ->).
  apply uap_inr in Hf as (g2 & ad & Hf & _ & ->).
  apply uap_inr in Hf as (g1 & em & Hf & _ & ->).
  apply umap_inr in Hf as (nm & _ & ->). simpl.
  assert (match ag with
          | None => dict_get d "age" = None \/ dict_get d "age" = Some VNone
          | Some z =>
              (0 <= z <= 120)%Z /\
              exists v, dict_get d "age" = Some v /\ v <> VNone /\ as_int v = Some z
          end) as Hage.
  { unfold optional_int_field in Hag.
    destruct (dict_get d "age") as [v|]; [|injection Hag as <-; auto].
    destruct (check_optional_int_range 0 120 v) as [errs|a] eqn:E; [discriminate|].
    injection Hag as ->. unfold check_optional_int_range in E.
    destruct v; try (injection E as <-; now auto);
      (destruct (as_int _) as [n|] eqn:En; [|discriminate]);
      (destruct (Z.leb_spec 0 n); [|discriminate]);
      (destruct (Z.leb_spec n 120); [|discriminate]);
      injection E as <-;
      (split; [lia | eexists; split; [reflexivity | split; [discriminate | exact En]]]). }
  split; [|split; [|split; [|split]]].
  - intros Hget. destruct ag as [z|]; [|reflexivity].
    destruct Hage as (_ & v & Hv & _). congruence.
  - intros Hget. destruct ag as [z|]; [|reflexivity].
    destruct Hage as (_ & v & Hv & Hne & _). congruence.
  - intros ->. exact Hage.
  - intros z ->. exact Hage.
  - intros Hget. apply plain_inr, with_default_inr in Hst.
    destruct Hst as [[_ ->]|(v & Hv & _)]; congruence.
Qed.

(** X15: an age below 0 or above 120 is refused, and the report names the
    field and the bound that failed. *)
Theorem user_age_out_of_range_is_reported `{Coercion}
    (d : dict) (v : value) (z : Z) :
  dict_get d "age" = Some v -> v <> VNone -> as_int v = Some z ->
  ((z < 0)%Z ->
   exists errs, User.fields d = inl errs /\
                In (UErr [LKey "age"] (Plain (GreaterThanEqual 0))) errs) /\
  ((120 < z)%Z ->
   exists errs, User.fields d = inl errs /\
                In (UErr [LKey "age"] (LessThanEqual 120)) errs).
Proof.
  intros Hget Hv Hz.
  assert (forall e, check_optional_int_range 0 120 v = inl [UErr [] e] ->
            exists errs, User.fields d = inl errs /\ In (UErr [LKey "age"] e) errs)
    as Hrep.
  { intros e Hc. unfold User.fields, optional_int_field. rewrite Hget, Hc. simpl.
    match goal with
    | |- context [uap (uap ?f (inl ?errs)) ?x] =>
        destruct (uap_inl_r (A:=option Z) f errs (UErr [LKey "age"] e))
          as (errs1 & -> & Hin1); [simpl; auto|];
        destruct (uap_inl_l (B:=User.t) errs1 x (UErr [LKey "age"] e) Hin1)
          as (errs2 & -> & Hin2)
    end.
    eauto. }
  split; intros Hb; apply Hrep; unfold check_optional_int_range; rewrite Hz;
    destruct v; try contradiction.
  all: try (destruct (Z.leb_spec 0 z); [lia | reflexivity]).
  all: destruct (Z.leb_spec 0 z); [|lia];
    destruct (Z.leb_spec z 120); [lia | reflexivity].
Qed.

(** * Worked cases of the further properties *)

(** X2 on the order of two mugs. *)
Lemma odd_order_keeps_its_item :
  @Order.fields json_coercion (Order.dump (odd_order [mug_item]))
    = inr (odd_order [mug_item]) /\
  order_in_bounds (odd_order [mug_item]) /\
  exists l,
    dict_get (Order.dump (odd_order [mug_item])) "items" = Some (VList l) /\
    length (Order.items (odd_order [mug_item])) = length l.
Proof.
  split; [reflexivity|].
  destruct (@validated_order_keeps_items json_coercion
              (Order.dump (odd_order [mug_item])) (odd_order [mug_item]) eq_refl)
    as (Hb & l & Hget & Hlen & _).
  split; [exact Hb|]. exists l. split; [exact Hget | exact Hlen].
Defined.

(** X4 on a product payload with a stock-keeping unit. *)
Lemma sku_is_ignored :
  agree_on Product_spec lamp_with_sku lamp /\
  @Product.fields json_coercion lamp_with_sku = @Product.fields json_coercion lamp.
Proof.
  assert (agree_on Product_spec lamp_with_sku lamp) as Ha.
  { intros f Hf. simpl in Hf.
    repeat (destruct Hf as [<-|Hf]; [reflexivity|]). contradiction. }
  split; [exact Ha|].
  exact (proj1 (@undeclared_keys_are_ignored json_coercion lamp_with_sku lamp) Ha).
Defined.

(** X5 on the lamp, which names neither description, image nor stock. *)
Lemma lamp_takes_defaults :
  exists p,
    @Product.fields json_coercion lamp = inr p /\
    dict_get lamp "in_stock" = None /\
    Product.in_stock p = true /\
    Product.description p = None /\
    Product.image p = None.
Proof.
  exists (Product.Build "Desk Lamp" None 24.5 "Lighting" None true).
  split; [reflexivity|]. split; [reflexivity|].
  destruct (@omitted_fields_take_defaults json_coercion lamp
              (Product.Build "Desk Lamp" None 24.5 "Lighting" None true) eq_refl)
    as (Hd & Hi & Hs & _ & _).
  split; [exact (Hs eq_refl)|]. split; [exact (Hd eq_refl) | exact (Hi eq_refl)].
Defined.

(** X7 on documents with a null price and a null category. *)
Lemma null_fields_break_the_mapping :
  dict_get null_price_product "price" = Some VNone /\
  (exists msg,
     @to_response bare_runtime json_coercion null_price_product
       = inl (type_error msg)) /\
  dict_get null_category_product "category" = Some VNone /\
  exists errs,
    @to_response bare_runtime json_coercion null_category_product
      = inl (ValidationError errs) /\
    In (Err [LKey "category"] (WrongType TStr)) errs.
Proof.
  split; [reflexivity|]. split.
  - exact (proj1 (@null_is_not_missing bare_runtime json_coercion
                    null_price_product) eq_refl).
  - split; [reflexivity|].
    exact (proj1 (proj2 (@null_is_not_missing bare_runtime json_coercion
                           null_category_product)) eq_refl 0%float eq_refl).
Defined.

(** X8 on a document with an integer price and the text false for its
    stock. *)
Lemma loose_product_is_converted :
  dict_get loose_product "price" = Some (VInt 12) /\
  dict_get loose_product "in_stock" = Some (VStr "false") /\
  is_infinity (float_of_Z 12) = false /\
  exists r,
    @to_response bare_runtime json_coercion loose_product = inr r /\
    ProductResponse.price r = float_of_Z 12 /\
    ProductResponse.in_stock r = true.
Proof.
  split; [reflexivity|]. split; [reflexivity|]. split; [reflexivity|].
  pose proof (@loosely_typed_fields_are_converted bare_runtime json_coercion
                loose_product "Old Vase" 12 eq_refl
                ltac:(intros v; discriminate)
                ltac:(intros v; discriminate)
                ltac:(intros v; discriminate)
                eq_refl) as Hc.
  change (is_infinity (float_of_Z 12)) with false in Hc.
  destruct Hc as (r & Hr & Hp & _ & Hs & _).
  exists r. split; [exact Hr|]. split; [exact Hp | exact (Hs "false" eq_refl)].
Defined.

(** X9 on the seeded store. *)
Lemma seeded_store_is_listed_in_order :
  @list_products bare_runtime json_coercion (Some seeded_db)
    = (inr (seed_responses 0), Some (after_listing seeded_db)) /\
  exists d',
    Some (after_listing seeded_db) = Some d' /\
    map ProductResponse.id (seed_responses 0) =
      map (fun doc => @py_str bare_runtime (get doc "_id")) (documents d' "product").
Proof.
  assert (@list_products bare_runtime json_coercion (Some seeded_db)
          = (inr (seed_responses 0), Some (after_listing seeded_db))) as Hl
    by (vm_compute; reflexivity).
  split; [exact Hl|].
  destruct (@listing_follows_the_collection bare_runtime json_coercion
              seeded_db (seed_responses 0) _ Hl)
    as (d' & Hd' & _ & _ & Hids).
  exists d'. split; [exact Hd' | exact Hids].
Defined.


(** X13 on a store with twelve collections: ten are shown. *)
Lemma crowded_store_shows_ten :
  exists names shown,
    name_raises crowded_db = None /\
    list_collection_names crowded_db = inr names /\
    length names = 12 /\
    dict_get (test_database (Some crowded_db) ∅) "collections"
      = Some (VList shown) /\
    length shown = 10.
Proof.
  destruct (diagnostics_shape (Some crowded_db) ∅) as (_ & _ & _ & _ & Hc).
  destruct (Hc crowded_db _ eq_refl eq_refl eq_refl) as (shown & Hget & Hlen).
  eexists _, shown. split; [reflexivity|]. split; [reflexivity|].
  split; [reflexivity|]. split; [exact Hget | exact Hlen].
Defined.

(** X14 on a user of 36 and on a user whose age is null. *)
Lemma young_user_is_accepted :
  @User.fields json_coercion young_user
    = inr (User.Build "Ada" "ada@example.org" "1 Main St" (Some 36%Z) true) /\
  (0 <= 36 <= 120)%Z /\
  dict_get ageless_user "age" = Some VNone /\
  exists u, @User.fields json_coercion ageless_user = inr u /\ User.age u = None.
Proof.
  split; [reflexivity|]. split.
  - destruct (@validated_user_age_is_bounded json_coercion young_user
                (User.Build "Ada" "ada@example.org" "1 Main St" (Some 36%Z) true)
                eq_refl) as (_ & _ & _ & Hz & _).
    exact (proj1 (Hz 36%Z eq_refl)).
  - split; [reflexivity|].
    exists (User.Build "Ada" "ada@example.org" "1 Main St" None true).
    split; [reflexivity|].
    destruct (@validated_user_age_is_bounded json_coercion ageless_user
                (User.Build "Ada" "ada@example.org" "1 Main St" None true)
                eq_refl) as (_ & Hn & _).
    exact (Hn eq_refl).
Defined.

(** X15 on a user of 121. *)
Lemma old_user_is_refused :
  dict_get old_user "age" = Some (VInt 121) /\
  exists errs,
    @User.fields json_coercion old_user = inl errs /\
    In (UErr [LKey "age"] (LessThanEqual 120)) errs.
Proof.
  split; [reflexivity|].
  exact (proj2 (@user_age_out_of_range_is_reported json_coercion old_user
                  (VInt 121) 121 eq_refl ltac:(discriminate) eq_refl)
           ltac:(reflexivity)).
Defined.

(** A message with accents is cut after its fiftieth character, not its
    fiftieth byte. *)
Example diagnostics_cut_characters :
  dict_get (test_database (Some french_db) ∅) "database" =
    Some (VStr "⚠️  Connected but Error: Échec de la connexion au serveur de données situé ") /\
  utf8_length (summary (PyError "ServerSelectionTimeoutError"
                 "Échec de la connexion au serveur de données situé à l'adresse 10.0.0.7"))
    = 50 /\
  String.length (summary (PyError "ServerSelectionTimeoutError"
                   "Échec de la connexion au serveur de données situé à l'adresse 10.0.0.7"))
    = 53.
Proof. repeat split; vm_compute; reflexivity. Qed.

(** A name that raises an attribute error is a name that is not there: the
    probe goes on and finds the store working. *)
Example diagnostics_on_nameless_handle :
  test_database (Some nameless_db) ∅ =
  [("backend", VStr "✅ Running");
   ("database", VStr "✅ Connected & Working");
   ("database_url", VStr "❌ Not Set");
   ("database_name", VStr "❌ Not Set");
   ("connection_status", VStr "Connected");
   ("collections", VList [])].
Proof. vm_compute. reflexivity. Qed.

(** An integer price beyond every float is refused by [float], and the
    listing it is part of is a server error. *)
Example huge_price_is_refused :
  @to_response bare_runtime json_coercion huge_price_product =
    inl (Raised (PyError "OverflowError" "int too large to convert to float")) /\
  fst (@get_api_products bare_runtime json_coercion
         (Some (set_documents "product" [huge_price_product] empty_db))) =
    InternalServerError.
Proof. split; vm_compute; reflexivity. Qed.
